(** * Shape-aware 3D layers of [src/model/network/layer.py]

    A shallow embedding of the custom Keras layers of the registration
    network (Deconv3D, Resize3d, Conv3dBlock, Deconv3dBlock,
    AdditiveUpSampling, DownSampleResnetBlock, UpSampleResnetBlock and
    DDFSummand) together with the properties of their [build] and [call]
    methods.

    Python integers are [Z] ([//] and [%] are [Z.div] and [Z.modulo], which
    round the same way), shapes are fully known and are lists of [Z], a
    tensor is its shape with its row-major buffer, and every method runs in
    a monad that threads the record of framework operations performed so far
    and may raise a Python exception. The numeric kernels of TensorFlow and
    the primitives made by [layer_util] are parameters. *)

From stdpp Require Import base list numbers strings.

(** ** Python exceptions *)

(** Errors raised from inside a TensorFlow or Keras primitive. *)
Inductive TfError :=
| InvalidArgumentError (msg : string)
| TfValueError (msg : string).

Inductive Exn :=
| ValueError (msg : string)     (* a [raise ValueError(msg)] statement of layer.py *)
| IndexError                    (* sequence index out of range *)
| ZeroDivisionError             (* integer modulo by zero *)
| TypeError                     (* calling [None] *)
| FrameworkError (e : TfError). (* propagated from a framework primitive *)

(** ** Values shared with the framework *)

Inductive ResizeMethod :=
| BILINEAR | NEAREST_NEIGHBOR | BICUBIC | AREA
| LANCZOS3 | LANCZOS5 | GAUSSIAN | MITCHELLCUBIC.

(** An argument that is either one Python int or a sequence of ints. *)
Inductive IntOrList :=
| PyInt (n : Z)
| PyList (l : list Z).

Definition Kwargs := list (string * string).

Record Tensor (elt : Type) := mkTensor { shape : list Z; data : list elt }.
Arguments mkTensor {elt} _ _.
Arguments shape {elt} _.
Arguments data {elt} _.

(** The keyword arguments handed to [tf.keras.layers.Conv3DTranspose]. *)
Record Conv3DTransposeArgs := mkConv3DTransposeArgs {
  ct_filters : Z;
  ct_kernel_size : list Z;
  ct_strides : list Z;
  ct_padding : string;
  ct_output_padding : option (list Z);
  ct_kwargs : Kwargs
}.

(** Framework operations a method performs, in program order. *)
Inductive Event :=
| EvReshape (new_shape : list Z)
| EvResize (size : list Z) (method : ResizeMethod)
| EvSplit (num : Z) (axis : nat)
| EvStack (axis : nat)
| EvReduceSum (axis : nat)
| EvConv3DTranspose (args : Conv3DTransposeArgs).

(** ** The monad of the methods *)

Record World := mkWorld {
  trace : list Event;  (* framework operations performed so far *)
  next_uid : nat       (* Keras' counter naming freshly created layers *)
}.

Definition M (A : Type) : Type := World → World * (Exn + A).

#[global] Instance M_ret : MRet M := λ A x w, (w, inr x).
#[global] Instance M_bind : MBind M := λ A B f m w,
  match m w with
  | (w', inl e) => (w', inl e)
  | (w', inr x) => f x w'
  end.

Definition raise {A} (e : Exn) : M A := λ w, (w, inl e).

Definition log (ev : Event) : M unit :=
  λ w, (mkWorld (trace w ++ [ev]) (next_uid w), inr tt).

Definition fresh_uid : M nat :=
  λ w, (mkWorld (trace w) (S (next_uid w)), inr (next_uid w)).

Definition invalid_argument {A} (msg : string) : M A :=
  raise (FrameworkError (InvalidArgumentError msg)).

Definition lift_tf {A} (r : TfError + A) : M A :=
  match r with
  | inl e => raise (FrameworkError e)
  | inr x => mret x
  end.

(** [l[i]] for a non-negative constant index. *)
Definition py_index {A} (l : list A) (i : nat) : M A :=
  match l !! i with
  | Some x => mret x
  | None => raise IndexError
  end.

(** [a % b] on Python ints. *)
Definition py_mod (a b : Z) : M Z :=
  if decide (b = 0)%Z then raise ZeroDivisionError else mret (a `mod` b)%Z.

(** [[f(i) for i in range(n)]] with a body that may raise. *)
Fixpoint list_comprehension {A} (f : nat → M A) (range : list nat) : M (list A) :=
  match range with
  | [] => mret []
  | i :: rest =>
      x ← f i;
      xs ← list_comprehension f rest;
      mret (x :: xs)
  end.

(** The outcome of running a method from a given world. *)
Definition result {A} (m : M A) (w : World) : Exn + A := snd (m w).
Definition trace_after {A} (m : M A) (w : World) : list Event := trace (fst (m w)).
Definition world0 : World := mkWorld [] 0.

(** ** The framework interface *)

Definition Layer (elt : Type) : Type := Tensor elt → TfError + Tensor elt.
(** A layer whose call also takes the [training] flag. *)
Definition TrainingLayer (elt : Type) : Type :=
  Tensor elt → option bool → TfError + Tensor elt.

(** TensorFlow as far as layer.py uses it. The numeric kernels are left
    open; shapes, validation and buffer layout are defined below. *)
Class TensorFlow := {
  elt : Type;
  eadd : elt → elt → elt;
  ezero : elt;
  (** Value of output element [j] (row-major, NHWC) of resizing [images]
      to [new_h] x [new_w] with [method]. *)
  resize_kernel :
    ResizeMethod → list Z → list elt → Z → Z → nat → elt;
  (** [a + b] on tensors of different shapes (broadcasting). *)
  broadcast_add : Tensor elt → Tensor elt → TfError + Tensor elt;
  (** [tf.keras.layers.Conv3DTranspose(...)]: the constructor validates its
      arguments and yields the layer named by the fresh uid. *)
  keras_Conv3DTranspose : nat → Conv3DTransposeArgs → TfError + Layer elt
}.

(** [src.model.network.layer_util], the factory of configured Keras
    primitives. A keyword the caller omits is [None] here; each primitive
    is named by the uid it was created with. *)
Class LayerUtil `{TensorFlow} := {
  lu_conv3d : nat → Z → option IntOrList → option IntOrList → option string → Layer elt;
  lu_batch_norm : nat → TrainingLayer elt;
  lu_act : nat → string → Layer elt;
  lu_max_pool3d : nat → list Z → list Z → Layer elt
}.

Section framework.
Context `{TF : TensorFlow}.
Local Open Scope Z_scope.

Definition numel (s : list Z) : Z := foldr Z.mul 1 s.

(** [tf.reshape] resolves one [-1] entry from the element count. *)
Definition reshape_target (n : Z) (s : list Z) : option (list Z) :=
  if forallb (Z.leb 0) s then
    if numel s =? n then Some s else None
  else
    let known := filter (λ d, d ≠ -1) s in
    if forallb (Z.leb 0) known && (length s =? S (length known))%nat
       && negb (numel known =? 0) && (n `mod` numel known =? 0)
    then Some ((λ d, if decide (d = -1) then n `div` numel known else d) <$> s)
    else None.

Definition tf_reshape (t : Tensor elt) (new_shape : list Z) : M (Tensor elt) :=
  log (EvReshape new_shape);;
  match reshape_target (numel (shape t)) new_shape with
  | Some s => mret (mkTensor s (data t))
  | None =>
      invalid_argument "Input to reshape has a different number of values"
  end.

Definition resized (images_shape : list Z) (images : list elt)
    (n new_h new_w c : Z) (method : ResizeMethod) : list elt :=
  resize_kernel method images_shape images new_h new_w
    <$> seq 0 (Z.to_nat (n * new_h * new_w * c)).

(** [tf.image.resize(images, size, method)] on channels-last images. *)
Definition tf_image_resize (images : Tensor elt) (size : list Z)
    (method : ResizeMethod) : M (Tensor elt) :=
  log (EvResize size method);;
  match size with
  | [new_h; new_w] =>
      match shape images with
      | [n; h; w; c] =>
          if (0 <? new_h) && (0 <? new_w) && (0 <? h) && (0 <? w) && (0 <? c) then
            mret (mkTensor [n; new_h; new_w; c]
                    (resized [n; h; w; c] (data images) n new_h new_w c method))
          else invalid_argument "image and output dimensions must be positive"
      | [h; w; c] =>
          if (0 <? new_h) && (0 <? new_w) && (0 <? h) && (0 <? w) && (0 <? c) then
            mret (mkTensor [new_h; new_w; c]
                    (resized [1; h; w; c] (data images) 1 new_h new_w c method))
          else invalid_argument "image and output dimensions must be positive"
      | _ => raise (FrameworkError (TfValueError "'images' must have either 3 or 4 dimensions."))
      end
  | _ => raise (FrameworkError (TfValueError "'size' must be a 1-D Tensor of 2 elements"))
  end.

(** Sum of a slice in index order; the empty sum is zero. *)
Definition esum (l : list elt) : elt :=
  match l with
  | [] => ezero
  | x :: xs => foldl eadd x xs
  end.

(** Buffers are row-major: around an axis of length [d], a tensor is
    [outer] blocks of [d] runs of [inner] elements. *)

(** Slice [k] of the [d `div` g] slices of length [g] along the axis. *)
Definition split_data (outer d g inner k : nat) (values : list elt) : list elt :=
  ((λ j, nth (j `div` (g * inner) * (d * inner) + k * g * inner + j `mod` (g * inner))
           values ezero)
     <$> seq 0 (outer * g * inner))%nat.

(** The buffers of [values] interleaved along a new axis. *)
Definition stack_data (outer inner : nat) (values : list (list elt)) : list elt :=
  (let n := length values in
   (λ j, let r := j `mod` (n * inner) in
         nth (j `div` (n * inner) * inner + r `mod` inner)
           (nth (r `div` inner) values []) ezero)
     <$> seq 0 (outer * n * inner))%nat.

(** The sums along the axis, each in index order. *)
Definition reduce_sum_data (outer d inner : nat) (values : list elt) : list elt :=
  ((λ j, esum ((λ k, nth (j `div` inner * (d * inner) + k * inner + j `mod` inner)
                       values ezero) <$> seq 0 d))
     <$> seq 0 (outer * inner))%nat.

(** [tf.split(value, num_or_size_splits=num, axis=axis)] with an integer
    [num]: [num] equal slices along [axis]. *)
Definition tf_split (value : Tensor elt) (num : Z) (axis : nat) : M (list (Tensor elt)) :=
  log (EvSplit num axis);;
  match shape value !! axis with
  | None => invalid_argument "split axis out of range"
  | Some dim =>
      if (0 <? num) && (dim `mod` num =? 0) then
        let outer := Z.to_nat (numel (take axis (shape value))) in
        let inner := Z.to_nat (numel (drop (S axis) (shape value))) in
        mret ((λ k,
                mkTensor (<[axis := dim `div` num]> (shape value))
                  (split_data outer (Z.to_nat dim) (Z.to_nat (dim `div` num)) inner k
                     (data value)))
              <$> seq 0 (Z.to_nat num))
      else invalid_argument "Dimension size must be evenly divisible by the number of splits"
  end.

(** [tf.stack(values, axis=axis)]: a new axis of length [len(values)]. *)
Definition tf_stack (values : list (Tensor elt)) (axis : nat) : M (Tensor elt) :=
  log (EvStack axis);;
  match values with
  | [] => raise (FrameworkError (TfValueError "stack of an empty list"))
  | v0 :: _ =>
      if forallb (λ v, bool_decide (shape v = shape v0)) values
         && bool_decide (axis ≤ length (shape v0))%nat then
        let outer := Z.to_nat (numel (take axis (shape v0))) in
        let inner := Z.to_nat (numel (drop axis (shape v0))) in
        mret (mkTensor
                (take axis (shape v0) ++ Z.of_nat (length values) :: drop axis (shape v0))
                (stack_data outer inner (data <$> values)))
      else invalid_argument "Shapes of all inputs must match"
  end.

(** [tf.reduce_sum(t, axis=axis)]: the axis is summed away. *)
Definition tf_reduce_sum (t : Tensor elt) (axis : nat) : M (Tensor elt) :=
  log (EvReduceSum axis);;
  match shape t !! axis with
  | None => invalid_argument "Invalid reduction dimension"
  | Some dim =>
      let outer := Z.to_nat (numel (take axis (shape t))) in
      let inner := Z.to_nat (numel (drop (S axis) (shape t))) in
      mret (mkTensor (delete axis (shape t))
              (reduce_sum_data outer (Z.to_nat dim) inner (data t)))
  end.

(** [a + b] on tensors. *)
Definition tensor_add (a b : Tensor elt) : M (Tensor elt) :=
  if decide (shape a = shape b)
  then mret (mkTensor (shape a) (zip_with eadd (data a) (data b)))
  else lift_tf (broadcast_add a b).

(** [TensorShape.__ne__] against a Python sequence of ints: shapes of
    different rank differ, shapes of one rank differ when a dimension
    does. *)
Definition TensorShape_ne (s : list Z) (other : list Z) : bool :=
  if negb (length s =? length other)%nat then true
  else negb (bool_decide (s = other)).

(** Calling a Keras primitive. *)
Definition call_layer (l : Layer elt) (inputs : Tensor elt) : M (Tensor elt) :=
  lift_tf (l inputs).
Definition call_training_layer (l : TrainingLayer elt) (inputs : Tensor elt)
    (training : option bool) : M (Tensor elt) :=
  lift_tf (l inputs training).

Definition new_Conv3DTranspose (args : Conv3DTransposeArgs) : M (Layer elt) :=
  log (EvConv3DTranspose args);;
  uid ← fresh_uid;
  lift_tf (keras_Conv3DTranspose uid args).
End framework.

(** ** class Deconv3D *)
Module Deconv3D.
Section defs.
Context `{TF : TensorFlow}.
Local Open Scope Z_scope.

Record t := mk {
  _filters : Z;
  _output_shape : option (list Z);
  _kernel_size : IntOrList;
  _strides : IntOrList;
  _padding : string;
  _kwargs : Kwargs;
  _output_padding : option (list Z);
  _Conv3DTranspose : option (Layer elt);
  built : bool
}.

Definition __init__ (filters : Z) (output_shape : option (list Z))
    (kernel_size strides : IntOrList) (padding : string) (kwargs : Kwargs) : t :=
  mk filters output_shape kernel_size strides padding kwargs None None false.

(** [[x] * 3] when [x] is an int, the sequence as given otherwise. *)
Definition triple (x : IntOrList) : list Z :=
  match x with
  | PyInt n => replicate 3 n
  | PyList l => l
  end.

Definition output_padding_at (output_shape input_shape strides kernel_size : list Z)
    (i : nat) : M Z :=
  o ← py_index output_shape i;
  d ← py_index input_shape (1 + i);
  s ← py_index strides i;
  k ← py_index kernel_size i;
  k' ← py_index kernel_size i;
  mret (o - ((d - 1) * s + k - 2 * (k' `div` 2))).

(** [build] returns the layer as the source leaves it when [build]
    returns.  The source mutates [self] in place and marks it built in
    [super().build] before the comprehension runs, so a [build] that raises
    leaves a layer that is marked built and holds no transposed
    convolution; here a [build] that raises returns no layer, and that
    state is not represented. *)
Definition build (self : t) (input_shape : list Z) : M t :=
  let kernel_size := triple (_kernel_size self) in
  let strides := triple (_strides self) in
  '(padding, output_padding) ←
    match _output_shape self with
    | Some output_shape =>
        op ← list_comprehension
               (output_padding_at output_shape input_shape strides kernel_size)
               (seq 0 3);
        mret ("same", Some op)
    | None => mret (_padding self, _output_padding self)
    end;
  layer ← new_Conv3DTranspose
             (mkConv3DTransposeArgs (_filters self) kernel_size strides
                padding output_padding (_kwargs self));
  mret (mk (_filters self) (_output_shape self) (PyList kernel_size) (PyList strides)
          padding (_kwargs self) output_padding (Some layer) true).

Definition call (self : t) (inputs : Tensor elt) : M (Tensor elt) :=
  match _Conv3DTranspose self with
  | Some layer => call_layer layer inputs
  | None => raise TypeError
  end.

(** Keras' [Layer.__call__]: build on the first input, then call. *)
Definition __call__ (self : t) (inputs : Tensor elt) : M (t * Tensor elt) :=
  self ← (if built self then mret self else build self (shape inputs));
  output ← call self inputs;
  mret (self, output).
End defs.
End Deconv3D.

(** ** class Resize3d *)
Module Resize3d.
Section defs.
Context `{TF : TensorFlow}.
Local Open Scope Z_scope.

Record t := mk {
  _size : list Z;
  _method : ResizeMethod
}.

Definition __init__ (size : list Z) (method : ResizeMethod) : t := mk size method.

Definition call (self : t) (inputs : Tensor elt) : M (Tensor elt) :=
  let input_shape := shape inputs in
  (* merge axis 0 and 1 *)
  b ← py_index input_shape 0;
  d1 ← py_index input_shape 1;
  d2 ← py_index input_shape 2;
  d3 ← py_index input_shape 3;
  c ← py_index input_shape 4;
  output ← tf_reshape inputs [b * d1; d2; d3; c];
  (* resize dim2 and dim3 *)
  s1 ← py_index (_size self) 1;
  s2 ← py_index (_size self) 2;
  output ← tf_image_resize output [s1; s2] (_method self);
  (* split axis 0 and merge axis 3 and 4 *)
  b ← py_index input_shape 0;
  d1 ← py_index input_shape 1;
  s1 ← py_index (_size self) 1;
  s2 ← py_index (_size self) 2;
  c ← py_index input_shape 4;
  output ← tf_reshape output [b; d1; s1; s2 * c];
  (* resize dim1 and dim2 *)
  s0 ← py_index (_size self) 0;
  s1 ← py_index (_size self) 1;
  output ← tf_image_resize output [s0; s1] (_method self);
  (* reshape *)
  b ← py_index input_shape 0;
  s0 ← py_index (_size self) 0;
  s1 ← py_index (_size self) 1;
  s2 ← py_index (_size self) 2;
  c ← py_index input_shape 4;
  tf_reshape output [b; s0; s1; s2; c].
End defs.
End Resize3d.

(** ** The factory calls of layer_util *)
Module layer_util.
Section defs.
Context `{TF : TensorFlow} {LU : LayerUtil}.

Definition conv3d (filters : Z) (kernel_size strides : option IntOrList)
    (padding : option string) : M (Layer elt) :=
  uid ← fresh_uid; mret (lu_conv3d uid filters kernel_size strides padding).
Definition batch_norm : M (TrainingLayer elt) :=
  uid ← fresh_uid; mret (lu_batch_norm uid).
Definition act (identifier : string) : M (Layer elt) :=
  uid ← fresh_uid; mret (lu_act uid identifier).
Definition max_pool3d (pool_size strides : list Z) : M (Layer elt) :=
  uid ← fresh_uid; mret (lu_max_pool3d uid pool_size strides).
End defs.
End layer_util.

(** ** class Conv3dBlock *)
Module Conv3dBlock.
Section defs.
Context `{TF : TensorFlow} {LU : LayerUtil}.

Record t := mk {
  _conv3d : Layer elt;
  _batch_norm : TrainingLayer elt;
  _relu : Layer elt
}.

Definition __init__ (filters : Z) (kernel_size strides : IntOrList)
    (padding : string) : M t :=
  conv ← layer_util.conv3d filters (Some kernel_size) (Some strides) (Some padding);
  bn ← layer_util.batch_norm;
  relu ← layer_util.act "relu";
  mret (mk conv bn relu).

Definition call (self : t) (inputs : Tensor elt) (training : option bool) : M (Tensor elt) :=
  output ← call_layer (_conv3d self) inputs;
  output ← call_training_layer (_batch_norm self) output training;
  output ← call_layer (_relu self) output;
  mret output.
End defs.
End Conv3dBlock.

(** ** class Deconv3dBlock *)
Module Deconv3dBlock.
Section defs.
Context `{TF : TensorFlow} {LU : LayerUtil}.

Record t := mk {
  _deconv3d : Deconv3D.t;
  _batch_norm : TrainingLayer elt;
  _relu : Layer elt
}.

Definition __init__ (filters : Z) (output_shape : option (list Z))
    (kernel_size strides : IntOrList) (padding : string) : M t :=
  let deconv := Deconv3D.__init__ filters output_shape kernel_size strides padding [] in
  bn ← layer_util.batch_norm;
  relu ← layer_util.act "relu";
  mret (mk deconv bn relu).

(** The inner Deconv3D is built by its first call, so the block is
    returned along with the output. *)
Definition call (self : t) (inputs : Tensor elt) (training : option bool)
    : M (t * Tensor elt) :=
  '(deconv, output) ← Deconv3D.__call__ (_deconv3d self) inputs;
  output ← call_training_layer (_batch_norm self) output training;
  output ← call_layer (_relu self) output;
  mret (mk deconv (_batch_norm self) (_relu self), output).
End defs.
End Deconv3dBlock.

(** ** class AdditiveUpSampling *)
Module AdditiveUpSampling.
Section defs.
Context `{TF : TensorFlow}.
Local Open Scope Z_scope.

Record t := mk {
  _stride : Z;
  _resize3d : Resize3d.t
}.

Definition __init__ (output_shape : list Z) (stride : Z) : t :=
  mk stride (Resize3d.__init__ output_shape BILINEAR).

Definition not_divisible : string :=
  "The channel dimension can not be divided by the stride".

Definition call (self : t) (inputs : Tensor elt) : M (Tensor elt) :=
  channels ← py_index (shape inputs) 4;
  r ← py_mod channels (_stride self);
  if decide (r ≠ 0) then raise (ValueError not_divisible)
  else
    output ← Resize3d.call (_resize3d self) inputs;
    outputs ← tf_split output (_stride self) 4;
    stacked ← tf_stack outputs 5;
    tf_reduce_sum stacked 5.
End defs.
End AdditiveUpSampling.

(** ** class DownSampleResnetBlock *)
Module DownSampleResnetBlock.
Section defs.
Context `{TF : TensorFlow} {LU : LayerUtil}.

Record t := mk {
  _use_pooling : bool;
  _conv3d_block1 : Conv3dBlock.t;
  _conv3d_block2 : Conv3dBlock.t;
  _conv3d : Layer elt;
  _batch_norm : TrainingLayer elt;
  _relu : Layer elt;
  _max_pool3d : Layer elt;
  _conv3d_block3 : Conv3dBlock.t
}.

Definition __init__ (filters : Z) (kernel_size : IntOrList) (use_pooling : bool) : M t :=
  block1 ← Conv3dBlock.__init__ filters kernel_size (PyInt 1) "same";
  block2 ← Conv3dBlock.__init__ filters kernel_size (PyInt 1) "same";
  conv ← layer_util.conv3d filters (Some kernel_size) (Some (PyInt 1)) None;
  bn ← layer_util.batch_norm;
  relu ← layer_util.act "relu";
  pool ← layer_util.max_pool3d [2; 2; 2]%Z [2; 2; 2]%Z;
  block3 ← Conv3dBlock.__init__ filters kernel_size (PyInt 2) "same";
  mret (mk use_pooling block1 block2 conv bn relu pool block3).

Definition call (self : t) (inputs : Tensor elt) (training : option bool)
    : M (Tensor elt * Tensor elt) :=
  h0 ← Conv3dBlock.call (_conv3d_block1 self) inputs training;
  r1 ← Conv3dBlock.call (_conv3d_block2 self) h0 training;
  conv ← call_layer (_conv3d self) r1;
  bn ← call_training_layer (_batch_norm self) conv training;
  sum ← tensor_add bn h0;
  r2 ← call_layer (_relu self) sum;
  h1 ← (if _use_pooling self
        then call_layer (_max_pool3d self) r2
        else Conv3dBlock.call (_conv3d_block3 self) r2 training);
  mret (h1, h0).
End defs.
End DownSampleResnetBlock.

(** A Python argument that is one value, a list or a tuple. *)
Inductive PyArg (A : Type) :=
| Single (x : A)
| ListOf (l : list A)
| TupleOf (l : list A).
Arguments Single {A} _.
Arguments ListOf {A} _.
Arguments TupleOf {A} _.

Definition PyArg_map {A B} (f : A → B) (x : PyArg A) : PyArg B :=
  match x with
  | Single a => Single (f a)
  | ListOf l => ListOf (f <$> l)
  | TupleOf l => TupleOf (f <$> l)
  end.

(** ** class UpSampleResnetBlock *)
Module UpSampleResnetBlock.
Section defs.
Context `{TF : TensorFlow} {LU : LayerUtil}.

Record t := mk {
  _filters : Z;
  _use_additive_upsampling : bool;
  _deconv3d_block : option Deconv3dBlock.t;
  _additive_upsampling : option AdditiveUpSampling.t;
  _conv3d_block : Conv3dBlock.t;
  _conv3d : Layer elt;
  _batch_norm : TrainingLayer elt;
  _relu : Layer elt;
  built : bool
}.

Definition __init__ (filters : Z) (use_additive_upsampling : bool) : M t :=
  block ← Conv3dBlock.__init__ filters (PyInt 3) (PyInt 1) "same";
  conv ← layer_util.conv3d filters None (Some (PyInt 1)) None;
  bn ← layer_util.batch_norm;
  relu ← layer_util.act "relu";
  mret (mk filters use_additive_upsampling None None block conv bn relu false).

Definition not_a_pair : string :=
  "UpSampleResnetBlock accepts an input, a list of tensors [input_nonskip, input_skip]".

(** The sanity check shared by [build] and [call]: the argument must be
    a [list] and have length two. *)
Definition sanity_check {A} (x : PyArg A) : M (list A) :=
  match x with
  | ListOf l =>
      if negb (length l =? 2)%nat then raise (ValueError not_a_pair) else mret l
  | _ => raise (ValueError not_a_pair)
  end.

Definition build (self : t) (input_shape : PyArg (list Z)) : M t :=
  shapes ← sanity_check input_shape;
  skip_shape ← py_index shapes 1;
  let output_shape := take 3 (drop 1 skip_shape) in
  deconv ← Deconv3dBlock.__init__ (_filters self) (Some output_shape)
             (PyInt 3) (PyInt 2) "same";
  let additive :=
    if _use_additive_upsampling self
    then Some (AdditiveUpSampling.__init__ output_shape 2)
    else _additive_upsampling self in
  mret (mk (_filters self) (_use_additive_upsampling self) (Some deconv) additive
          (_conv3d_block self) (_conv3d self) (_batch_norm self) (_relu self) true).

Definition call (self : t) (inputs : PyArg (Tensor elt)) (training : option bool)
    : M (t * Tensor elt) :=
  tensors ← sanity_check inputs;
  inputs_nonskip ← py_index tensors 0;
  inputs_skip ← py_index tensors 1;
  '(deconv, h0) ←
    match _deconv3d_block self with
    | Some block => Deconv3dBlock.call block inputs_nonskip training
    | None => raise TypeError
    end;
  h0 ← (if _use_additive_upsampling self then
          match _additive_upsampling self with
          | Some layer =>
              up ← AdditiveUpSampling.call layer inputs_nonskip;
              tensor_add h0 up
          | None => raise TypeError
          end
        else mret h0);
  r1 ← tensor_add h0 inputs_skip;
  r2 ← Conv3dBlock.call (_conv3d_block self) h0 training;
  conv ← call_layer (_conv3d self) r2;
  bn ← call_training_layer (_batch_norm self) conv training;
  sum ← tensor_add bn r1;
  h1 ← call_layer (_relu self) sum;
  mret (mk (_filters self) (_use_additive_upsampling self) (Some deconv)
          (_additive_upsampling self) (_conv3d_block self) (_conv3d self)
          (_batch_norm self) (_relu self) (built self), h1).

(** Keras' [Layer.__call__]: build on the shapes of the first input,
    then call. *)
Definition __call__ (self : t) (inputs : PyArg (Tensor elt)) (training : option bool)
    : M (t * Tensor elt) :=
  self ← (if built self then mret self else build self (PyArg_map shape inputs));
  call self inputs training.
End defs.
End UpSampleResnetBlock.

(** ** class DDFSummand *)
Module DDFSummand.
Section defs.
Context `{TF : TensorFlow} {LU : LayerUtil}.

Record t := mk {
  _output_shape : list Z;
  _conv3d : Layer elt;
  _resize3d : Resize3d.t
}.

Definition __init__ (output_shape : list Z) (filters : Z) : M t :=
  conv ← layer_util.conv3d filters None (Some (PyInt 1)) None;
  mret (mk output_shape conv (Resize3d.__init__ output_shape BILINEAR)).

Definition call (self : t) (inputs : Tensor elt) : M (Tensor elt) :=
  output ← call_layer (_conv3d self) inputs;
  if TensorShape_ne (shape inputs) (_output_shape self)
  then Resize3d.call (_resize3d self) output
  else mret output.
End defs.
End DDFSummand.

(** ** An integer backend to run the layers on concrete inputs

    Tensors of integers, nearest-neighbour resizing for every method, and
    stand-in Keras primitives that return a zero-filled tensor of the
    output shape the real primitive would have. *)
Module ZBackend.
Local Open Scope Z_scope.

Definition zeros (s : list Z) : Tensor Z :=
  mkTensor s (replicate (Z.to_nat (foldr Z.mul 1 s)) 0).

Definition nearest (method : ResizeMethod) (images_shape : list Z) (images : list Z)
    (new_h new_w : Z) (j : nat) : Z :=
  match images_shape with
  | [n; h; w; c] =>
      let j := Z.of_nat j in
      let ch := j `mod` c in
      let x := (j `div` c) `mod` new_w in
      let y := (j `div` (c * new_w)) `mod` new_h in
      let b := j `div` (c * new_w * new_h) in
      nth (Z.to_nat (((b * h + (y * h) `div` new_h) * w + (x * w) `div` new_w) * c + ch))
        images 0
  | _ => 0
  end.

(** Length of a transposed convolution's output along one axis. *)
Definition deconv_length (padding : string) (output_padding : option Z) (d k s : Z) : Z :=
  match output_padding with
  | Some op =>
      if String.eqb padding "same" then (d - 1) * s + k - 2 * (k `div` 2) + op
      else (d - 1) * s + k + op
  | None =>
      if String.eqb padding "same" then d * s else d * s + Z.max (k - s) 0
  end.

Definition Conv3DTranspose (uid : nat) (args : Conv3DTransposeArgs)
    : TfError + Layer Z :=
  match ct_kernel_size args, ct_strides args with
  | [k0; k1; k2], [s0; s1; s2] =>
      let ops :=
        match ct_output_padding args with
        | Some [p0; p1; p2] => Some (Some p0, Some p1, Some p2)
        | Some _ => None
        | None => Some (None, None, None)
        end in
      match ops with
      | Some (p0, p1, p2) =>
          if forallb (λ '(p, s), match p with Some p => (0 <=? p) && (p <? s) | None => true end)
               [(p0, s0); (p1, s1); (p2, s2)]
          then inr (λ inputs,
                 match shape inputs with
                 | [b; d1; d2; d3; c] =>
                     inr (zeros [b; deconv_length (ct_padding args) p0 d1 k0 s0;
                                 deconv_length (ct_padding args) p1 d2 k1 s1;
                                 deconv_length (ct_padding args) p2 d3 k2 s2;
                                 ct_filters args])
                 | _ => inl (TfValueError "Conv3DTranspose expects a 5-D input")
                 end)
          else inl (TfValueError "Stride must be greater than output padding")
      | None => inl (TfValueError "output_padding must have 3 elements")
      end
  | _, _ => inl (TfValueError "kernel_size and strides must have 3 elements")
  end.

#[export] Instance tf : TensorFlow := {|
  elt := Z;
  eadd := Z.add;
  ezero := 0;
  resize_kernel := nearest;
  broadcast_add := λ a b, inl (InvalidArgumentError "Incompatible shapes");
  keras_Conv3DTranspose := Conv3DTranspose
|}.

Definition stride_of (strides : option IntOrList) (i : nat) : Z :=
  match strides with
  | Some (PyInt s) => s
  | Some (PyList l) => nth i l 1
  | None => 1
  end.

(** A "same"-padded convolution: each spatial axis is divided by its
    stride, rounding up. *)
Definition conv3d (uid : nat) (filters : Z) (kernel_size strides : option IntOrList)
    (padding : option string) : Layer Z :=
  λ inputs,
    match shape inputs with
    | [b; d1; d2; d3; c] =>
        inr (zeros [b; - ((- d1) `div` stride_of strides 0);
                    - ((- d2) `div` stride_of strides 1);
                    - ((- d3) `div` stride_of strides 2); filters])
    | _ => inl (TfValueError "Conv3D expects a 5-D input")
    end.

Definition max_pool3d (uid : nat) (pool_size strides : list Z) : Layer Z :=
  λ inputs,
    match shape inputs with
    | [b; d1; d2; d3; c] =>
        inr (zeros [b; d1 `div` nth 0 strides 1; d2 `div` nth 1 strides 1;
                    d3 `div` nth 2 strides 1; c])
    | _ => inl (TfValueError "MaxPool3D expects a 5-D input")
    end.

#[export] Instance lu : LayerUtil := {|
  lu_conv3d := conv3d;
  lu_batch_norm := λ uid inputs training, inr inputs;
  lu_act := λ uid identifier inputs,
    inr (mkTensor (shape inputs) (Z.max 0 <$> data inputs));
  lu_max_pool3d := max_pool3d
|}.

(** A tensor of the given shape holding 0, 1, 2, ... *)
Definition arange (s : list Z) : Tensor Z :=
  mkTensor s (Z.of_nat <$> seq 0 (Z.to_nat (foldr Z.mul 1 s))).
End ZBackend.

(** * Vocabulary of the statements *)

Section vocabulary.
Context `{TF : TensorFlow}.
Local Open Scope Z_scope.

(** A kernel size or stride the constructor accepts: one int or three. *)
Definition int_or_triple (x : IntOrList) : Prop :=
  match x with
  | PyInt _ => True
  | PyList l => length l = 3%nat
  end.

(** The output padding of axis [i], as the docstring of [build] derives
    it from the transposed-convolution length formula. *)
Definition expected_output_padding (output_shape input_shape strides kernel_size : list Z)
    (i : nat) : Z :=
  nth i output_shape 0
  - ((nth (1 + i) input_shape 0 - 1) * nth i strides 0
     + nth i kernel_size 0 - 2 * (nth i kernel_size 0 `div` 2)).

(** The two-pass resize of section 4.2 on a [(batch, dim1, dim2, dim3,
    channels)] tensor: merge batch and axis 1 and resize axes 2 and 3;
    split the leading axis again, merge the resized axis 3 with the
    channels and resize axes 1 and 2; reshape to the target. *)
Definition two_stage_resize (method : ResizeMethod)
    (batch dim1 dim2 dim3 channels target1 target2 target3 : Z)
    (inputs : Tensor elt) : M (Tensor elt) :=
  merged ← tf_reshape inputs [batch * dim1; dim2; dim3; channels];
  stage1 ← tf_image_resize merged [target2; target3] method;
  split ← tf_reshape stage1 [batch; dim1; target2; target3 * channels];
  stage2 ← tf_image_resize split [target1; target2] method;
  tf_reshape stage2 [batch; target1; target2; target3; channels].

Definition two_stage_trace (b d1 d2 d3 c s0 s1 s2 : Z) (method : ResizeMethod)
    : list Event :=
  [EvReshape [b * d1; d2; d3; c];
   EvResize [s1; s2] method;
   EvReshape [b; d1; s1; s2 * c];
   EvResize [s0; s1] method;
   EvReshape [b; s0; s1; s2; c]].

Definition two_stage_data (b d1 d2 d3 c s0 s1 s2 : Z) (method : ResizeMethod)
    (images : list elt) : list elt :=
  resized [b; d1; s1; s2 * c]
    (resized [b * d1; d2; d3; c] images (b * d1) s1 s2 c method)
    b s0 s1 (s2 * c) method.

(** Channels [g * G .. g * G + G - 1] of a channels-last buffer of [P]
    positions with [C] channels each: one of the contiguous groups the
    channel axis is partitioned into. *)
Definition channel_group (P C G g : nat) (values : list elt) : list elt :=
  flat_map (λ p, (λ ch, nth (p * C + g * G + ch) values ezero) <$> seq 0 G)%nat
    (seq 0 P).

(** The elementwise sum of buffers of [n] elements. *)
Definition elementwise_sum (n : nat) (groups : list (list elt)) : list elt :=
  (λ j, esum ((λ group, nth j group ezero) <$> groups)) <$> seq 0 n.

(** Section 4.4 after the resize: partition the channel axis of a
    [(batch, dim1, dim2, dim3, channels)] tensor into [stride] groups of
    [channels / stride] channels and sum the groups elementwise. *)
Definition sum_of_channel_groups (stride : Z) (t : Tensor elt) : Tensor elt :=
  match shape t with
  | [b; d1; d2; d3; c] =>
      let P := Z.to_nat (b * d1 * d2 * d3) in
      let G := Z.to_nat (c `div` stride) in
      mkTensor [b; d1; d2; d3; c `div` stride]
        (elementwise_sum (P * G)
           ((λ g, channel_group P (Z.to_nat c) G g (data t))
              <$> seq 0 (Z.to_nat stride)))
  | _ => t
  end.

(** The Python argument is a list of exactly two elements. *)
Definition is_pair {A} (x : PyArg A) : Prop := ∃ a b, x = ListOf [a; b].

(** [x] is an object the constructor call [m] can return. *)
Definition constructed {A} (m : M A) (x : A) : Prop :=
  ∃ w, result m w = inr x.

(** Every exception [m] can raise satisfies [P]. *)
Definition raises_only {A} (P : Exn → Prop) (m : M A) : Prop :=
  ∀ w e, result m w = inl e → P e.

(** [P] holds of the exceptions of Python's built-in operations and of
    the framework, so it can only fail on a [raise] of layer.py. *)
Definition admits_builtin (P : Exn → Prop) : Prop :=
  P IndexError ∧ P ZeroDivisionError ∧ P TypeError ∧ ∀ e, P (FrameworkError e).
End vocabulary.

Section constructed_layers.
Context `{TF : TensorFlow} {LU : LayerUtil}.

(** The Conv3dBlock whose three primitives were created with the uids
    [uid], [uid + 1] and [uid + 2]. *)
Definition Conv3dBlock_at (uid : nat) (filters : Z) (kernel_size strides : IntOrList)
    (padding : string) : Conv3dBlock.t :=
  Conv3dBlock.mk
    (lu_conv3d uid filters (Some kernel_size) (Some strides) (Some padding))
    (lu_batch_norm (S uid))
    (lu_act (S (S uid)) "relu").
End constructed_layers.

(** ** Vocabulary of the further properties *)

Section more_vocabulary.
Context `{TF : TensorFlow}.
Local Open Scope Z_scope.

(** The output length of a transposed convolution along one axis, as the
    docstring of [Deconv3D.build] gives it for the padding "same". *)
Definition deconv_output_length (input_length stride filter_size output_padding : Z) : Z :=
  let pad := filter_size `div` 2 in
  (input_length - 1) * stride + filter_size - 2 * pad + output_padding.

(** Every index the comprehension of [Deconv3D.build] reads is in range. *)
Definition indexable (output_shape input_shape strides kernel_size : list Z) : bool :=
  ((3 <=? length output_shape) && (4 <=? length input_shape)
   && (3 <=? length strides) && (3 <=? length kernel_size))%nat.

(** What [Deconv3D.build] does once padding and output padding are fixed:
    construct the primitive and store the configuration. *)
Definition build_with (self : Deconv3D.t) (padding : string)
    (output_padding : option (list Z)) (w : World) : World * (Exn + Deconv3D.t) :=
  let kernel_size := Deconv3D.triple (Deconv3D._kernel_size self) in
  let strides := Deconv3D.triple (Deconv3D._strides self) in
  let args := mkConv3DTransposeArgs (Deconv3D._filters self) kernel_size strides
                padding output_padding (Deconv3D._kwargs self) in
  (mkWorld (trace w ++ [EvConv3DTranspose args]) (S (next_uid w)),
   match keras_Conv3DTranspose (next_uid w) args with
   | inl e => inl (FrameworkError e)
   | inr layer =>
       inr (Deconv3D.mk (Deconv3D._filters self) (Deconv3D._output_shape self)
              (PyList kernel_size) (PyList strides) padding (Deconv3D._kwargs self)
              output_padding (Some layer) true)
   end).

(** A built layer holds its transposed convolution. *)
Definition ready (self : Deconv3D.t) : Prop :=
  Deconv3D.built self = true → is_Some (Deconv3D._Conv3DTranspose self).
End more_vocabulary.

Section more_constructed_layers.
Context `{TF : TensorFlow} {LU : LayerUtil}.

(** The Deconv3dBlock that [UpSampleResnetBlock.build] creates for a skip
    tensor of shape [skip_shape] when Keras' counter stands at [uid]. *)
Definition fresh_deconv_block (filters : Z) (skip_shape : list Z) (uid : nat)
    : Deconv3dBlock.t :=
  Deconv3dBlock.mk
    (Deconv3D.__init__ filters (Some (take 3 (drop 1 skip_shape)))
       (PyInt 3) (PyInt 2) "same" [])
    (lu_batch_norm uid) (lu_act (S uid) "relu").

(** Whatever [m] adds to the record of framework operations satisfies [Q]. *)
Definition emits {A} (Q : Event → Prop) (m : M A) : Prop :=
  ∀ w, ∃ events, trace (fst (m w)) = trace w ++ events ∧ Forall Q events.

Definition is_construction (ev : Event) : Prop :=
  ∃ args, ev = EvConv3DTranspose args.
End more_constructed_layers.

(** * Properties *)

(** ** Running the monad *)

Lemma result_bind {A B} (m : M A) (f : A → M B) w :
  result (m ≫= f) w =
    match result m w with
    | inl e => inl e
    | inr x => result (f x) (fst (m w))
    end.
Proof. unfold result, mbind, M_bind. by destruct (m w) as [w' [e|x]]. Qed.

(** Unfold the monad far enough for [cbn] to run a method on an input
    whose lists have a known length. *)
Ltac run :=
  repeat progress
    (unfold result, trace_after, mbind, M_bind, mret, M_ret, invalid_argument, raise,
       log, fresh_uid, lift_tf, py_index, py_mod in *; cbn in *).

(** Turn a hypothesis on the length of a list into its elements. *)
Ltac explode l :=
  repeat match goal with
  | H : length l = _ |- _ =>
      destruct l; cbn [length] in H; [try discriminate H | try discriminate H];
      try (injection H as H)
  end.

Section Deconv3D_properties.
Context `{TF : TensorFlow}.
Local Open Scope Z_scope.

Lemma triple_length x : int_or_triple x → length (Deconv3D.triple x) = 3%nat.
Proof. by destruct x. Qed.

(** C1. Built with a three-element [output_shape], Deconv3D hands the
    transposed convolution the padding mode "same", whatever padding the
    constructor was given, and on each spatial axis [i] the output
    padding [output_shape[i] - ((input_shape[1+i] - 1) * strides[i]
    + kernel_size[i] - 2 * (kernel_size[i] // 2))]; built without an
    [output_shape], it hands on the caller's padding and no output
    padding. The built layer keeps the same two values. *)
Theorem Deconv3D_build_output_padding filters (output_shape : option (list Z))
    kernel_size strides padding kwargs (input_shape : list Z) (w : World) :
  let self := Deconv3D.__init__ filters output_shape kernel_size strides padding kwargs in
  let ks := Deconv3D.triple kernel_size in
  let st := Deconv3D.triple strides in
  (∀ os, output_shape = Some os → length os = 3%nat → length input_shape = 5%nat →
     int_or_triple kernel_size → int_or_triple strides →
     let op := expected_output_padding os input_shape st ks <$> seq 0 3 in
     trace_after (Deconv3D.build self input_shape) w
       = trace w ++ [EvConv3DTranspose
                       (mkConv3DTransposeArgs filters ks st "same" (Some op) kwargs)]
     ∧ ∀ self', result (Deconv3D.build self input_shape) w = inr self' →
         Deconv3D._padding self' = "same" ∧ Deconv3D._output_padding self' = Some op)
  ∧ (output_shape = None →
     trace_after (Deconv3D.build self input_shape) w
       = trace w ++ [EvConv3DTranspose
                       (mkConv3DTransposeArgs filters ks st padding None kwargs)]
     ∧ ∀ self', result (Deconv3D.build self input_shape) w = inr self' →
         Deconv3D._padding self' = padding ∧ Deconv3D._output_padding self' = None).
Proof.
  intros self ks st. split.
  - intros os -> Hos Hin Hk Hs op.
    apply triple_length in Hk, Hs. subst op self ks st.
    unfold Deconv3D.build, Deconv3D.__init__, new_Conv3DTranspose,
      Deconv3D.output_padding_at.
    cbn [Deconv3D._kernel_size Deconv3D._strides Deconv3D._output_shape
         Deconv3D._filters Deconv3D._kwargs].
    destruct (Deconv3D.triple kernel_size) as [|k0 [|k1 [|k2 [|]]]]; try discriminate Hk.
    destruct (Deconv3D.triple strides) as [|s0 [|s1 [|s2 [|]]]]; try discriminate Hs.
    explode os. explode input_shape.
    run.
    destruct (keras_Conv3DTranspose _ _) as [e|layer]; run.
    + split; [done|]. intros ? [=].
    + split; [done|]. by intros ? [= <-].
  - intros ->. subst self ks st.
    unfold Deconv3D.build, Deconv3D.__init__, new_Conv3DTranspose. run.
    destruct (keras_Conv3DTranspose _ _) as [e|layer]; run.
    + split; [done|]. intros ? [=].
    + split; [done|]. by intros ? [= <-].
Qed.
End Deconv3D_properties.

(** ** The framework operations on well-formed arguments *)

Section framework_properties.
Context `{TF : TensorFlow}.
Local Open Scope Z_scope.

Lemma forallb_nonneg (s : list Z) :
  Forall (λ d, 0 ≤ d) s → forallb (Z.leb 0) s = true.
Proof.
  induction 1 as [|d s Hd _ IH]; [done|].
  cbn. rewrite IH. by apply Z.leb_le in Hd as ->.
Qed.

Lemma reshape_target_same n (s : list Z) :
  Forall (λ d, 0 ≤ d) s → numel s = n → reshape_target n s = Some s.
Proof.
  intros Hs Hn. unfold reshape_target.
  rewrite forallb_nonneg by done. by apply Z.eqb_eq in Hn as ->.
Qed.

Lemma tf_reshape_ok (t : Tensor elt) (s : list Z) w :
  Forall (λ d, 0 ≤ d) s → numel s = numel (shape t) →
  tf_reshape t s w
    = (mkWorld (trace w ++ [EvReshape s]) (next_uid w), inr (mkTensor s (data t))).
Proof.
  intros Hs Hn. unfold tf_reshape. run.
  by rewrite reshape_target_same.
Qed.

Lemma tf_image_resize_ok (images : Tensor elt) n h wd c new_h new_w method w :
  shape images = [n; h; wd; c] →
  0 < new_h → 0 < new_w → 0 < h → 0 < wd → 0 < c →
  tf_image_resize images [new_h; new_w] method w
    = (mkWorld (trace w ++ [EvResize [new_h; new_w] method]) (next_uid w),
       inr (mkTensor [n; new_h; new_w; c]
              (resized [n; h; wd; c] (data images) n new_h new_w c method))).
Proof.
  intros Hshape ?%Z.ltb_lt ?%Z.ltb_lt ?%Z.ltb_lt ?%Z.ltb_lt ?%Z.ltb_lt.
  unfold tf_image_resize. run. rewrite Hshape.
  by repeat match goal with H : (_ <? _) = true |- _ => rewrite H; clear H end.
Qed.
End framework_properties.

(** Side conditions of a reshape: non-negative entries, same element count. *)
Ltac shape_side :=
  first
    [ repeat (apply Forall_cons; split; [nia|]); apply Forall_nil
    | unfold numel; cbn;
      repeat match goal with H : shape _ = _ |- _ => rewrite H end; cbn; lia ].

Section Resize3d_properties.
Context `{TF : TensorFlow}.
Local Open Scope Z_scope.

(** What a successful call of Resize3d leaves behind: five framework
    operations and the twice-resized buffer in the target shape. *)
Lemma Resize3d_call_ok (self : Resize3d.t) (inputs : Tensor elt)
    b d1 d2 d3 c s0 s1 s2 w :
  shape inputs = [b; d1; d2; d3; c] →
  Resize3d._size self = [s0; s1; s2] →
  0 ≤ b → 0 < d1 → 0 < d2 → 0 < d3 → 0 < c →
  0 < s0 → 0 < s1 → 0 < s2 →
  Resize3d.call self inputs w
    = (mkWorld (trace w ++ two_stage_trace b d1 d2 d3 c s0 s1 s2 (Resize3d._method self))
         (next_uid w),
       inr (mkTensor [b; s0; s1; s2; c]
              (two_stage_data b d1 d2 d3 c s0 s1 s2 (Resize3d._method self)
                 (data inputs)))).
Proof.
  intros Hshape Hsize Hb Hd1 Hd2 Hd3 Hc Hs0 Hs1 Hs2.
  unfold Resize3d.call. rewrite Hshape, Hsize. run.
  rewrite tf_reshape_ok; [|shape_side..].
  erewrite tf_image_resize_ok; [|done || lia..]. cbn.
  rewrite tf_reshape_ok; [|shape_side..]. cbn.
  erewrite tf_image_resize_ok; [|done || nia..]. cbn.
  rewrite tf_reshape_ok; [|shape_side..]. cbn.
  all: try done.
  by rewrite <- !app_assoc.
Qed.

(** C2. On a [(batch, dim1, dim2, dim3, channels)] tensor and a three-element
    target size, Resize3d.call returns a tensor of shape [(batch, size[0],
    size[1], size[2], channels)]: the spatial axes are the target size
    whatever the input's were, batch and channels are the input's.  The
    tensor returned is a full one: its buffer holds [batch * size[0] *
    size[1] * size[2] * channels] elements, the element count of its
    shape, and they are the input's elements resized over axes 2 and 3 and
    then over axes 1 and 2 with the configured method. *)
Theorem Resize3d_call_shape (self : Resize3d.t) (inputs : Tensor elt)
    b d1 d2 d3 c s0 s1 s2 w :
  shape inputs = [b; d1; d2; d3; c] →
  Resize3d._size self = [s0; s1; s2] →
  0 ≤ b → 0 < d1 → 0 < d2 → 0 < d3 → 0 < c →
  0 < s0 → 0 < s1 → 0 < s2 →
  ∃ output, result (Resize3d.call self inputs) w = inr output
            ∧ shape output = [b; s0; s1; s2; c]
            ∧ Z.of_nat (length (data output)) = b * s0 * s1 * s2 * c
            ∧ Z.of_nat (length (data output)) = numel (shape output)
            ∧ data output
              = two_stage_data b d1 d2 d3 c s0 s1 s2 (Resize3d._method self)
                  (data inputs).
Proof.
  intros. unfold result. erewrite Resize3d_call_ok by done.
  eexists. split; [done|]. cbn [shape data snd].
  assert (Z.of_nat (length (two_stage_data b d1 d2 d3 c s0 s1 s2
                              (Resize3d._method self) (data inputs)))
          = b * s0 * s1 * s2 * c) as Hlength.
  { unfold two_stage_data, resized. rewrite length_fmap, length_seq.
    rewrite Z2Nat.id by nia. ring. }
  split; [done|]. split; [done|]. split; [|done].
  rewrite Hlength. unfold numel. cbn [foldr]. ring.
Qed.

Lemma tf_reshape_world (t : Tensor elt) s w :
  fst (tf_reshape t s w) = mkWorld (trace w ++ [EvReshape s]) (next_uid w).
Proof. unfold tf_reshape. run. by destruct (reshape_target _ _). Qed.

Lemma tf_image_resize_world (t : Tensor elt) size method w :
  fst (tf_image_resize t size method w)
    = mkWorld (trace w ++ [EvResize size method]) (next_uid w).
Proof.
  unfold tf_image_resize. run.
  repeat (first [done | case_match]).
Qed.

(** C7. Resize3d.call is the two-pass resize: reshape to [(batch * dim1,
    dim2, dim3, channels)] and resize to [(size[1], size[2])], reshape to
    [(batch, dim1, size[1], size[2] * channels)] and resize to [(size[0],
    size[1])], reshape to [(batch, size[0], size[1], size[2], channels)].
    A call that returns has performed exactly these five operations, the
    two resizes with the configured method. *)
Theorem Resize3d_call_two_stage (self : Resize3d.t) (inputs : Tensor elt)
    b d1 d2 d3 c s0 s1 s2 w :
  shape inputs = [b; d1; d2; d3; c] →
  Resize3d._size self = [s0; s1; s2] →
  Resize3d.call self inputs w
    = two_stage_resize (Resize3d._method self) b d1 d2 d3 c s0 s1 s2 inputs w
  ∧ (∀ output, result (Resize3d.call self inputs) w = inr output →
       trace_after (Resize3d.call self inputs) w
         = trace w ++ two_stage_trace b d1 d2 d3 c s0 s1 s2 (Resize3d._method self)).
Proof.
  intros Hshape Hsize.
  assert (Resize3d.call self inputs w
          = two_stage_resize (Resize3d._method self) b d1 d2 d3 c s0 s1 s2 inputs w)
    as Hcall.
  { unfold Resize3d.call, two_stage_resize. rewrite Hshape, Hsize. by run. }
  split; [done|]. unfold result, trace_after. rewrite Hcall. clear Hcall.
  unfold two_stage_resize, mbind, M_bind.
  intros output.
  repeat match goal with
  | |- context [tf_reshape ?t ?s ?w0] =>
      let H := fresh in
      pose proof (tf_reshape_world t s w0) as H;
      destruct (tf_reshape t s w0) as [? [?|?]]; cbn in H; subst; cbn;
      [discriminate|]
  | |- context [tf_image_resize ?t ?s ?m ?w0] =>
      let H := fresh in
      pose proof (tf_image_resize_world t s m w0) as H;
      destruct (tf_image_resize t s m w0) as [? [?|?]]; cbn in H; subst; cbn;
      [discriminate|]
  end.
  intros _. by rewrite <- !app_assoc.
Qed.
End Resize3d_properties.

Section DDFSummand_properties.
Context `{TF : TensorFlow} {LU : LayerUtil}.
Local Open Scope Z_scope.

Lemma TensorShape_ne_spec (s other : list Z) :
  TensorShape_ne s other = true ↔ s ≠ other.
Proof.
  unfold TensorShape_ne.
  destruct (length s =? length other)%nat eqn:Hlen; cbn.
  - rewrite negb_true_iff, bool_decide_eq_false. done.
  - apply Nat.eqb_neq in Hlen. split; [|done]. by intros _ ->.
Qed.

Lemma DDFSummand_call_cases (self : DDFSummand.t) (inputs : Tensor elt) w :
  match DDFSummand._conv3d self inputs with
  | inl e => DDFSummand.call self inputs w = (w, inl (FrameworkError e))
  | inr projection =>
      DDFSummand.call self inputs w
        = if decide (shape inputs = DDFSummand._output_shape self)
          then (w, inr projection)
          else Resize3d.call (DDFSummand._resize3d self) projection w
  end.
Proof.
  unfold DDFSummand.call, call_layer.
  destruct (DDFSummand._conv3d self inputs) as [e|projection]; run; [done|].
  destruct (TensorShape_ne _ _) eqn:Hguard.
  - apply TensorShape_ne_spec in Hguard. by rewrite decide_False.
  - apply not_true_iff_false in Hguard.
    rewrite TensorShape_ne_spec in Hguard.
    destruct (decide (shape inputs = DDFSummand._output_shape self)); [done|].
    by destruct Hguard.
Qed.

(** C3. DDFSummand.call first applies the convolution to the input; the
    projection goes through Resize3d exactly when the input's shape
    differs from the configured [output_shape], and is returned as it is
    when the two are equal. *)
Theorem DDFSummand_call_resizes_unless_shapes_match (self : DDFSummand.t)
    (inputs : Tensor elt) w :
  match DDFSummand._conv3d self inputs with
  | inl e => DDFSummand.call self inputs w = (w, inl (FrameworkError e))
  | inr projection =>
      (shape inputs ≠ DDFSummand._output_shape self →
         DDFSummand.call self inputs w
           = Resize3d.call (DDFSummand._resize3d self) projection w)
      ∧ (shape inputs = DDFSummand._output_shape self →
           DDFSummand.call self inputs w = (w, inr projection))
  end.
Proof.
  pose proof (DDFSummand_call_cases self inputs w) as Hcall.
  destruct (DDFSummand._conv3d self inputs) as [e|projection]; [done|].
  split; intros Hshape; rewrite Hcall.
  - by rewrite decide_False.
  - by rewrite decide_True.
Qed.

Lemma DDFSummand_constructed output_shape filters self :
  constructed (DDFSummand.__init__ output_shape filters) self →
  DDFSummand._output_shape self = output_shape
  ∧ DDFSummand._resize3d self = Resize3d.mk output_shape BILINEAR.
Proof.
  intros [w Hw]. unfold DDFSummand.__init__, layer_util.conv3d in Hw. run.
  by injection Hw as <-.
Qed.

(** C4. On a 5-D input a constructed DDFSummand always takes the resize
    branch, because the five-element input shape never equals the
    three-element [output_shape]; so the spatial axes of what it returns
    are [output_shape], also for an input that already has them. *)
Theorem DDFSummand_call_always_resizes output_shape filters (self : DDFSummand.t)
    (inputs : Tensor elt) w :
  constructed (DDFSummand.__init__ output_shape filters) self →
  length (shape inputs) = 5%nat →
  length output_shape = 3%nat →
  TensorShape_ne (shape inputs) (DDFSummand._output_shape self) = true
  ∧ ∀ projection, DDFSummand._conv3d self inputs = inr projection →
      DDFSummand.call self inputs w
        = Resize3d.call (Resize3d.mk output_shape BILINEAR) projection w
      ∧ ∀ b d1 d2 d3 f,
          shape projection = [b; d1; d2; d3; f] →
          0 ≤ b → 0 < d1 → 0 < d2 → 0 < d3 → 0 < f →
          Forall (λ o, 0 < o) output_shape →
          ∃ output, result (DDFSummand.call self inputs) w = inr output
                    ∧ shape output = b :: output_shape ++ [f].
Proof.
  intros [Hos Hresize]%DDFSummand_constructed Hin Hout.
  assert (shape inputs ≠ DDFSummand._output_shape self) as Hne.
  { rewrite Hos. intros Heq. rewrite Heq, Hout in Hin. discriminate Hin. }
  split; [by apply TensorShape_ne_spec|].
  intros projection Hconv.
  pose proof (DDFSummand_call_cases self inputs w) as Hcall.
  rewrite Hconv, decide_False, Hresize in Hcall by done.
  split; [done|].
  intros b d1 d2 d3 f Hp Hb Hd1 Hd2 Hd3 Hf Hpos.
  destruct output_shape as [|o1 [|o2 [|o3 [|]]]]; try discriminate Hout.
  apply Forall_cons in Hpos as [Ho1 Hpos].
  apply Forall_cons in Hpos as [Ho2 Hpos].
  apply Forall_cons in Hpos as [Ho3 _].
  unfold result. rewrite Hcall.
  erewrite Resize3d_call_ok by done. by eexists.
Qed.
End DDFSummand_properties.

(** ** Which exceptions the framework operations raise *)

Section raises_only.
Context `{TF : TensorFlow} {LU : LayerUtil}.
Context (P : Exn → Prop) (HP : admits_builtin P).

Lemma raises_only_ret {A} (x : A) : raises_only P (mret x).
Proof. intros w e. by run. Qed.

Lemma raises_only_raise {A} e : P e → raises_only P (raise (A := A) e).
Proof. intros He w e'. run. by intros [= <-]. Qed.

Lemma raises_only_bind {A B} (m : M A) (f : A → M B) :
  raises_only P m → (∀ x, raises_only P (f x)) → raises_only P (m ≫= f).
Proof.
  intros Hm Hf w e. rewrite result_bind.
  destruct (result m w) as [e'|x] eqn:Hr.
  - intros [= <-]. by eapply Hm.
  - apply Hf.
Qed.

Lemma raises_only_log ev : raises_only P (log ev).
Proof. intros w e. by run. Qed.

Lemma raises_only_fresh_uid : raises_only P fresh_uid.
Proof. intros w e. by run. Qed.

Lemma raises_only_lift_tf {A} (r : TfError + A) : raises_only P (lift_tf r).
Proof.
  destruct r; cbn; [apply raises_only_raise, HP | apply raises_only_ret].
Qed.

Lemma raises_only_py_index {A} (l : list A) i : raises_only P (py_index l i).
Proof.
  unfold py_index. destruct (l !! i); [apply raises_only_ret|].
  apply raises_only_raise, HP.
Qed.

Lemma raises_only_py_mod a b : raises_only P (py_mod a b).
Proof.
  unfold py_mod. case_decide; [|apply raises_only_ret].
  apply raises_only_raise, HP.
Qed.

Lemma raises_only_framework_error {A} e :
  raises_only P (raise (A := A) (FrameworkError e)).
Proof. apply raises_only_raise, HP. Qed.

(** Decompose a method into its binds and close the leaves. *)
Ltac raises_only_steps :=
  repeat first
    [ apply raises_only_ret
    | apply raises_only_framework_error
    | apply raises_only_log
    | apply raises_only_fresh_uid
    | apply raises_only_lift_tf
    | apply raises_only_py_index
    | apply raises_only_py_mod
    | apply raises_only_bind; [|intros ?]
    | case_match ].

Lemma raises_only_tf_reshape (t : Tensor elt) s : raises_only P (tf_reshape t s).
Proof. unfold tf_reshape. raises_only_steps. Qed.

Lemma raises_only_tf_image_resize (t : Tensor elt) size method :
  raises_only P (tf_image_resize t size method).
Proof. unfold tf_image_resize. raises_only_steps. Qed.

Lemma raises_only_tf_split (t : Tensor elt) num axis :
  raises_only P (tf_split t num axis).
Proof. unfold tf_split. raises_only_steps. Qed.

Lemma raises_only_tf_stack (ts : list (Tensor elt)) axis :
  raises_only P (tf_stack ts axis).
Proof. unfold tf_stack. raises_only_steps. Qed.

Lemma raises_only_tf_reduce_sum (t : Tensor elt) axis :
  raises_only P (tf_reduce_sum t axis).
Proof. unfold tf_reduce_sum. raises_only_steps. Qed.

Lemma raises_only_tensor_add (a b : Tensor elt) : raises_only P (tensor_add a b).
Proof. unfold tensor_add. raises_only_steps. Qed.

Lemma raises_only_Resize3d_call (self : Resize3d.t) (inputs : Tensor elt) :
  raises_only P (Resize3d.call self inputs).
Proof.
  unfold Resize3d.call.
  repeat first
    [ apply raises_only_tf_reshape
    | apply raises_only_tf_image_resize
    | apply raises_only_py_index
    | apply raises_only_bind; [|intros ?] ].
Qed.

Lemma raises_only_list_comprehension {A} (f : nat → M A) range :
  (∀ i, raises_only P (f i)) → raises_only P (list_comprehension f range).
Proof.
  intros Hf. induction range as [|i range IH]; cbn [list_comprehension].
  - apply raises_only_ret.
  - apply raises_only_bind; [done|]. intros x.
    apply raises_only_bind; [done|]. intros xs. apply raises_only_ret.
Qed.

Lemma raises_only_Deconv3D___call__ (self : Deconv3D.t) (inputs : Tensor elt) :
  raises_only P (Deconv3D.__call__ self inputs).
Proof.
  unfold Deconv3D.__call__, Deconv3D.build, Deconv3D.call, new_Conv3DTranspose,
    call_layer.
  repeat first
    [ apply raises_only_list_comprehension; intros ?; unfold Deconv3D.output_padding_at
    | apply raises_only_raise, HP
    | progress raises_only_steps ].
Qed.

Lemma raises_only_Conv3dBlock_call (self : Conv3dBlock.t) (inputs : Tensor elt) training :
  raises_only P (Conv3dBlock.call self inputs training).
Proof.
  unfold Conv3dBlock.call, call_layer, call_training_layer. raises_only_steps.
Qed.

Lemma raises_only_Deconv3dBlock_call (self : Deconv3dBlock.t) (inputs : Tensor elt)
    training :
  raises_only P (Deconv3dBlock.call self inputs training).
Proof.
  unfold Deconv3dBlock.call, call_layer, call_training_layer.
  apply raises_only_bind; [apply raises_only_Deconv3D___call__|].
  intros [deconv output]. raises_only_steps.
Qed.

Lemma raises_only_AdditiveUpSampling_call (self : AdditiveUpSampling.t)
    (inputs : Tensor elt) :
  P (ValueError AdditiveUpSampling.not_divisible) →
  raises_only P (AdditiveUpSampling.call self inputs).
Proof.
  intros Hdiv. unfold AdditiveUpSampling.call.
  repeat first
    [ apply raises_only_Resize3d_call
    | apply raises_only_tf_split
    | apply raises_only_tf_stack
    | apply raises_only_tf_reduce_sum
    | apply raises_only_raise, Hdiv
    | apply raises_only_py_index
    | apply raises_only_py_mod
    | apply raises_only_bind; [|intros ?]
    | case_decide ].
Qed.

Lemma raises_only_UpSampleResnetBlock_call (self : UpSampleResnetBlock.t)
    (inputs : PyArg (Tensor elt)) training :
  P (ValueError AdditiveUpSampling.not_divisible) →
  is_pair inputs →
  raises_only P (UpSampleResnetBlock.call self inputs training).
Proof.
  intros Hdiv (a & b & ->). unfold UpSampleResnetBlock.call, call_layer,
    call_training_layer.
  apply raises_only_bind; [by intros w e|]. intros tensors.
  repeat first
    [ apply raises_only_Deconv3dBlock_call
    | apply raises_only_Conv3dBlock_call
    | by apply raises_only_AdditiveUpSampling_call
    | apply raises_only_tensor_add
    | apply raises_only_raise, HP
    | apply raises_only_ret
    | apply raises_only_lift_tf
    | apply raises_only_py_index
    | apply raises_only_bind; [|intros ?]
    | case_match ].
Qed.
End raises_only.

Section additive_data.
Context `{TF : TensorFlow}.

Lemma nth_fmap_seq {A} (f : nat → A) n j d :
  (j < n)%nat → nth j (f <$> seq 0 n) d = f j.
Proof.
  intros Hj. rewrite nth_lookup, list_lookup_fmap, lookup_seq_lt by done. done.
Qed.

Lemma flat_map_fmap_seq {A} (f : nat → nat → A) P G :
  (0 < G)%nat →
  flat_map (λ p, f p <$> seq 0 G) (seq 0 P)
    = (λ j, f (j `div` G) (j `mod` G))%nat <$> seq 0 (P * G).
Proof.
  intros HG. induction P as [|P IH]; [done|].
  rewrite seq_S, flat_map_app, IH. cbn [flat_map]. rewrite app_nil_r.
  replace (S P * G)%nat with (P * G + G)%nat by lia.
  rewrite seq_app, fmap_app. f_equal. cbn.
  apply list_eq. intros i.
  rewrite !list_lookup_fmap.
  destruct (decide (i < G)%nat) as [Hi|Hi].
  - rewrite !lookup_seq_lt by done. cbn. f_equal.
    replace (P * G + i)%nat with (i + P * G)%nat by lia.
    rewrite Nat.div_add, Nat.Div0.mod_add by lia.
    rewrite Nat.div_small, Nat.mod_small by done. done.
  - rewrite !lookup_seq_ge by lia. done.
Qed.

Lemma split_data_channel_group P C G k (values : list elt) :
  (0 < G)%nat →
  split_data P C G 1 k values = channel_group P C G k values.
Proof.
  intros HG. unfold split_data, channel_group.
  rewrite flat_map_fmap_seq by done.
  rewrite !Nat.mul_1_r. by apply list_fmap_ext.
Qed.

Lemma stack_data_nth Q (parts : list (list elt)) j k :
  (j < Q)%nat → (k < length parts)%nat →
  nth (j * length parts + k) (stack_data Q 1 parts) ezero
    = nth j (nth k parts []) ezero.
Proof.
  intros Hj Hk. unfold stack_data.
  rewrite nth_fmap_seq by nia.
  rewrite !Nat.mul_1_r, !Nat.mod_1_r, !Nat.div_1_r, Nat.add_0_r.
  replace (j * length parts + k)%nat with (k + j * length parts)%nat by lia.
  rewrite Nat.div_add, Nat.Div0.mod_add by lia.
  by rewrite Nat.div_small, Nat.mod_small by done.
Qed.

Lemma stack_reduce_sum Q (parts : list (list elt)) :
  reduce_sum_data Q (length parts) 1 (stack_data Q 1 parts)
    = elementwise_sum Q parts.
Proof.
  unfold reduce_sum_data, elementwise_sum.
  rewrite !Nat.mul_1_r.
  apply list_eq. intros j. rewrite !list_lookup_fmap.
  destruct (decide (j < Q)%nat) as [Hj|Hj]; [|by rewrite !lookup_seq_ge by lia].
  rewrite !lookup_seq_lt by done. cbn [fmap option_fmap option_map Nat.add].
  f_equal. f_equal.
  apply list_eq. intros k. rewrite !list_lookup_fmap.
  destruct (decide (k < length parts)%nat) as [Hk|Hk].
  - rewrite lookup_seq_lt by done.
    destruct (lookup_lt_is_Some_2 parts k Hk) as [group Hgroup].
    rewrite Hgroup. cbn [fmap option_fmap option_map Nat.add]. f_equal.
    rewrite Nat.div_1_r, Nat.mod_1_r, !Nat.mul_1_r, Nat.add_0_r.
    rewrite stack_data_nth by done.
    by rewrite (nth_lookup_Some _ _ _ _ Hgroup).
  - rewrite lookup_seq_ge, lookup_ge_None_2 by lia. done.
Qed.

Local Open Scope Z_scope.

Lemma tf_split_ok (value : Tensor elt) num axis dim w :
  shape value !! axis = Some dim → 0 < num → dim `mod` num = 0 →
  tf_split value num axis w
    = (mkWorld (trace w ++ [EvSplit num axis]) (next_uid w),
       inr ((λ k,
              mkTensor (<[axis := dim `div` num]> (shape value))
                (split_data (Z.to_nat (numel (take axis (shape value))))
                   (Z.to_nat dim) (Z.to_nat (dim `div` num))
                   (Z.to_nat (numel (drop (S axis) (shape value)))) k (data value)))
            <$> seq 0 (Z.to_nat num))).
Proof.
  intros Hdim ?%Z.ltb_lt ?%Z.eqb_eq. unfold tf_split. run.
  rewrite Hdim. by repeat match goal with H : _ = true |- _ => rewrite H; clear H end.
Qed.

Lemma tf_stack_ok (values : list (Tensor elt)) s axis w :
  values ≠ [] → Forall (λ v, shape v = s) values → (axis ≤ length s)%nat →
  tf_stack values axis w
    = (mkWorld (trace w ++ [EvStack axis]) (next_uid w),
       inr (mkTensor (take axis s ++ Z.of_nat (length values) :: drop axis s)
              (stack_data (Z.to_nat (numel (take axis s)))
                 (Z.to_nat (numel (drop axis s))) (data <$> values)))).
Proof.
  intros Hne Hshapes Haxis. unfold tf_stack. run.
  destruct values as [|v0 values]; [done|].
  pose proof (Forall_inv Hshapes) as Hv0. cbn in Hv0.
  assert (forallb (λ v, bool_decide (shape v = shape v0)) (v0 :: values) = true) as ->.
  { apply forallb_forall. intros v Hv. apply bool_decide_eq_true.
    rewrite Forall_forall in Hshapes. rewrite Hv0. apply Hshapes.
    by apply list_elem_of_In. }
  rewrite Hv0, bool_decide_eq_true_2 by done. done.
Qed.

Lemma tf_reduce_sum_ok (t : Tensor elt) axis dim w :
  shape t !! axis = Some dim →
  tf_reduce_sum t axis w
    = (mkWorld (trace w ++ [EvReduceSum axis]) (next_uid w),
       inr (mkTensor (delete axis (shape t))
              (reduce_sum_data (Z.to_nat (numel (take axis (shape t)))) (Z.to_nat dim)
                 (Z.to_nat (numel (drop (S axis) (shape t)))) (data t)))).
Proof. intros Hdim. unfold tf_reduce_sum. run. by rewrite Hdim. Qed.
End additive_data.

Section AdditiveUpSampling_properties.
Context `{TF : TensorFlow}.
Local Open Scope Z_scope.

Lemma not_a_configuration_error_builtin :
  admits_builtin (λ e, ∀ msg, e ≠ ValueError msg).
Proof. by repeat split. Qed.

Lemma AdditiveUpSampling_call_raises (self : AdditiveUpSampling.t)
    (inputs : Tensor elt) b d1 d2 d3 c w :
  shape inputs = [b; d1; d2; d3; c] →
  AdditiveUpSampling._stride self ≠ 0 →
  c `mod` AdditiveUpSampling._stride self ≠ 0 →
  AdditiveUpSampling.call self inputs w
    = (w, inl (ValueError AdditiveUpSampling.not_divisible)).
Proof.
  intros Hshape Hstride Hmod. unfold AdditiveUpSampling.call. rewrite Hshape. run.
  rewrite decide_False by done. cbn. by rewrite decide_True.
Qed.

(** C5. On a 5-D input, AdditiveUpSampling.call raises its ValueError
    exactly when the channel count [inputs.shape[4]] is not a multiple of
    the stride, and it raises it before any framework operation has been
    performed. *)
Theorem AdditiveUpSampling_call_divisibility_check (self : AdditiveUpSampling.t)
    (inputs : Tensor elt) b d1 d2 d3 c w :
  shape inputs = [b; d1; d2; d3; c] →
  AdditiveUpSampling._stride self ≠ 0 →
  (result (AdditiveUpSampling.call self inputs) w
     = inl (ValueError AdditiveUpSampling.not_divisible)
   ↔ c `mod` AdditiveUpSampling._stride self ≠ 0)
  ∧ (c `mod` AdditiveUpSampling._stride self ≠ 0 →
     AdditiveUpSampling.call self inputs w
       = (w, inl (ValueError AdditiveUpSampling.not_divisible))).
Proof.
  intros Hshape Hstride.
  assert (c `mod` AdditiveUpSampling._stride self ≠ 0 →
          AdditiveUpSampling.call self inputs w
            = (w, inl (ValueError AdditiveUpSampling.not_divisible))) as Hraise.
  { intros Hmod. by eapply AdditiveUpSampling_call_raises. }
  split; [|done]. split.
  - intros Hresult Hmod.
    revert Hresult. unfold AdditiveUpSampling.call. rewrite Hshape. run.
    rewrite decide_False by done. cbn. rewrite decide_False by (by intros []).
    intros Hresult.
    refine (raises_only_bind (λ e, ∀ msg, e ≠ ValueError msg) _ _ _ _ w _ Hresult _ eq_refl).
    + by apply raises_only_Resize3d_call, not_a_configuration_error_builtin.
    + intros output. apply raises_only_bind;
        [by apply raises_only_tf_split, not_a_configuration_error_builtin|].
      intros outputs. apply raises_only_bind;
        [by apply raises_only_tf_stack, not_a_configuration_error_builtin|].
      intros stacked.
      by apply raises_only_tf_reduce_sum, not_a_configuration_error_builtin.
  - intros Hmod. unfold result. by rewrite Hraise.
Qed.

(** C6. On a 5-D input whose channel count [c] is a multiple of the
    stride, AdditiveUpSampling.call returns the input resized to
    [output_shape] by Resize3d, its channel axis partitioned into [stride]
    contiguous groups of [c / stride] channels and the groups summed
    elementwise; the result has shape [(batch, out_dim1, out_dim2,
    out_dim3, c / stride)]. *)
Theorem AdditiveUpSampling_call_sums_channel_groups output_shape stride
    (inputs : Tensor elt) b d1 d2 d3 c o1 o2 o3 w :
  shape inputs = [b; d1; d2; d3; c] →
  output_shape = [o1; o2; o3] →
  0 ≤ b → 0 < d1 → 0 < d2 → 0 < d3 → 0 < c →
  0 < o1 → 0 < o2 → 0 < o3 →
  0 < stride → c `mod` stride = 0 →
  ∃ upsampled,
    result (Resize3d.call (Resize3d.__init__ output_shape BILINEAR) inputs) w
      = inr upsampled
    ∧ result (AdditiveUpSampling.call
                (AdditiveUpSampling.__init__ output_shape stride) inputs) w
      = inr (sum_of_channel_groups stride upsampled)
    ∧ shape (sum_of_channel_groups stride upsampled) = [b; o1; o2; o3; c `div` stride].
Proof.
  intros Hshape -> Hb Hd1 Hd2 Hd3 Hc Ho1 Ho2 Ho3 Hstride Hmod.
  pose proof (Resize3d_call_ok (Resize3d.__init__ [o1; o2; o3] BILINEAR) inputs
                b d1 d2 d3 c o1 o2 o3) as Hresize.
  eexists. split; [|split].
  - unfold result. by rewrite Hresize.
  - unfold AdditiveUpSampling.call, AdditiveUpSampling.__init__.
    rewrite Hshape. run.
    rewrite decide_False by lia. cbn. rewrite decide_False by (by intros []).
    cbn in Hresize. rewrite Hresize by done. cbn.
    erewrite tf_split_ok by done. cbn.
    assert (0 < c `div` stride) as HG.
    { apply Z.div_str_pos. split; [done|].
      apply Z.divide_pos_le; [done|]. by apply Z.mod_divide; [lia|]. }
    assert (∃ n, Z.to_nat stride = S n) as [n Hn] by (exists (Z.to_nat (stride - 1)); lia).
    erewrite (tf_stack_ok _ [b; o1; o2; o3; c `div` stride]); cycle 1.
    { rewrite Hn. done. }
    { apply Forall_fmap, Forall_true. done. }
    { cbn. lia. }
    cbn.
    erewrite tf_reduce_sum_ok by done. cbn.
    rewrite !length_fmap, length_seq, Nat2Z.id.
    do 2 f_equal.
    rewrite <- list_fmap_compose. unfold compose. cbn.
    replace (Z.to_nat (b * (o1 * (o2 * (o3 * (c `div` stride * 1))))))
      with (Z.to_nat (b * o1 * o2 * o3) * Z.to_nat (c `div` stride))%nat by nia.
    replace (Z.to_nat (b * (o1 * (o2 * (o3 * 1))))) with (Z.to_nat (b * o1 * o2 * o3))
      by (f_equal; lia).
    change (Z.to_nat 1) with 1%nat.
    erewrite (list_fmap_ext (λ k, split_data _ _ _ 1 k _));
      [|intros _ k _; apply split_data_channel_group; lia].
    match goal with |- context [elementwise_sum _ ?l] => set (parts := l) end.
    replace (Z.to_nat stride) with (length parts)
      by (subst parts; by rewrite length_fmap, length_seq).
    apply stack_reduce_sum.
  - done.
Qed.
End AdditiveUpSampling_properties.

Section DownSampleResnetBlock_properties.
Context `{TF : TensorFlow} {LU : LayerUtil}.

Lemma lift_tf_run {A} (r : TfError + A) w :
  lift_tf r w = (w, match r with inl e => inl (FrameworkError e) | inr x => inr x end).
Proof. by destruct r. Qed.

Lemma tensor_add_run (a b : Tensor elt) w :
  tensor_add a b w = (w, result (tensor_add a b) w).
Proof.
  unfold tensor_add, result. case_decide; [done|]. by rewrite lift_tf_run.
Qed.

Lemma Conv3dBlock_call_run (self : Conv3dBlock.t) (inputs : Tensor elt) training w :
  Conv3dBlock.call self inputs training w
    = (w, result (Conv3dBlock.call self inputs training) w).
Proof.
  unfold Conv3dBlock.call, call_layer, call_training_layer, result, mbind, M_bind.
  rewrite !lift_tf_run.
  destruct (Conv3dBlock._conv3d self inputs) as [e|x]; [done|].
  rewrite !lift_tf_run.
  destruct (Conv3dBlock._batch_norm self x training) as [e|y]; [done|].
  rewrite !lift_tf_run.
  by destruct (Conv3dBlock._relu self y).
Qed.

Lemma Conv3dBlock_constructed filters kernel_size strides padding w :
  Conv3dBlock.__init__ filters kernel_size strides padding w
    = (mkWorld (trace w) (3 + next_uid w),
       inr (Conv3dBlock_at (next_uid w) filters kernel_size strides padding)).
Proof. done. Qed.

Lemma DownSampleResnetBlock_constructed filters kernel_size use_pooling self :
  constructed (DownSampleResnetBlock.__init__ filters kernel_size use_pooling) self →
  ∃ uid,
    self = DownSampleResnetBlock.mk use_pooling
             (Conv3dBlock_at uid filters kernel_size (PyInt 1) "same")
             (Conv3dBlock_at (3 + uid) filters kernel_size (PyInt 1) "same")
             (lu_conv3d (6 + uid) filters (Some kernel_size) (Some (PyInt 1)) None)
             (lu_batch_norm (7 + uid))
             (lu_act (8 + uid) "relu")
             (lu_max_pool3d (9 + uid) [2; 2; 2]%Z [2; 2; 2]%Z)
             (Conv3dBlock_at (10 + uid) filters kernel_size (PyInt 2) "same").
Proof.
  intros [w Hw]. exists (next_uid w). revert Hw.
  unfold DownSampleResnetBlock.__init__, result, mbind, M_bind.
  rewrite !Conv3dBlock_constructed. cbn. by intros [= <-].
Qed.

(** C8. DownSampleResnetBlock.call returns the pair [(h1, h0)] where
    [h0 = Conv3dBlock1(x)], [r1 = Conv3dBlock2(h0)], [r2 = ReLU(BatchNorm(
    Conv(r1)) + h0)] and [h1] is the 2x2x2 max pooling of [r2] when
    [use_pooling] holds and the stride-2 Conv3dBlock of [r2] otherwise;
    whichever way it downsamples, the second tensor it returns is [h0]. *)
Theorem DownSampleResnetBlock_call_returns_pair filters kernel_size use_pooling
    (self : DownSampleResnetBlock.t) (inputs : Tensor elt) training w :
  constructed (DownSampleResnetBlock.__init__ filters kernel_size use_pooling) self →
  (∃ uid,
     DownSampleResnetBlock._use_pooling self = use_pooling
     ∧ DownSampleResnetBlock._max_pool3d self
       = lu_max_pool3d uid [2; 2; 2]%Z [2; 2; 2]%Z
     ∧ DownSampleResnetBlock._conv3d_block3 self
       = Conv3dBlock_at (S uid) filters kernel_size (PyInt 2) "same")
  ∧ (∀ h0 r1 conv bn sum r2 h1,
       result (Conv3dBlock.call (DownSampleResnetBlock._conv3d_block1 self)
                 inputs training) w = inr h0 →
       result (Conv3dBlock.call (DownSampleResnetBlock._conv3d_block2 self)
                 h0 training) w = inr r1 →
       DownSampleResnetBlock._conv3d self r1 = inr conv →
       DownSampleResnetBlock._batch_norm self conv training = inr bn →
       result (tensor_add bn h0) w = inr sum →
       DownSampleResnetBlock._relu self sum = inr r2 →
       (if use_pooling
        then DownSampleResnetBlock._max_pool3d self r2 = inr h1
        else result (Conv3dBlock.call (DownSampleResnetBlock._conv3d_block3 self)
                       r2 training) w = inr h1) →
       result (DownSampleResnetBlock.call self inputs training) w = inr (h1, h0))
  ∧ (∀ h1 skip,
       result (DownSampleResnetBlock.call self inputs training) w = inr (h1, skip) →
       result (Conv3dBlock.call (DownSampleResnetBlock._conv3d_block1 self)
                 inputs training) w = inr skip).
Proof.
  intros Hself.
  assert (DownSampleResnetBlock._use_pooling self = use_pooling) as Hpool.
  { by destruct (DownSampleResnetBlock_constructed _ _ _ _ Hself) as [uid ->]. }
  split.
  { destruct (DownSampleResnetBlock_constructed _ _ _ _ Hself) as [uid ->].
    by exists (9 + uid)%nat. }
  clear Hself. split.
  - intros h0 r1 conv bn sum r2 h1 Hh0 Hr1 Hconv Hbn Hsum Hr2 Hh1.
    unfold DownSampleResnetBlock.call, call_layer, call_training_layer.
    unfold result, mbind, M_bind.
    rewrite Conv3dBlock_call_run, Hh0, Conv3dBlock_call_run, Hr1, Hconv. cbn.
    rewrite Hbn. cbn. rewrite tensor_add_run, Hsum, Hr2, Hpool. cbn.
    destruct use_pooling.
    + by rewrite Hh1.
    + by rewrite Conv3dBlock_call_run, Hh1.
  - intros h1 skip.
    unfold DownSampleResnetBlock.call.
    rewrite result_bind.
    destruct (result (Conv3dBlock.call _ inputs training) w) as [e|h0]; [done|].
    repeat (rewrite result_bind; case_match; [done|]).
    unfold result. cbn. by intros [= _ <-].
Qed.
End DownSampleResnetBlock_properties.

Section UpSampleResnetBlock_properties.
Context `{TF : TensorFlow} {LU : LayerUtil}.
Local Open Scope Z_scope.

Lemma sanity_check_rejects {A} (x : PyArg A) w :
  ¬ is_pair x →
  UpSampleResnetBlock.sanity_check x w
    = (w, inl (ValueError UpSampleResnetBlock.not_a_pair)).
Proof.
  intros Hx. destruct x as [x|l|l]; try done.
  destruct l as [|a [|b [|]]]; try done. destruct Hx. by exists a, b.
Qed.

Lemma not_a_pair_builtin :
  admits_builtin (λ e, e ≠ ValueError UpSampleResnetBlock.not_a_pair).
Proof. by repeat split. Qed.

(** C9. UpSampleResnetBlock raises its ValueError, at build and at call,
    on every input that is not a list of exactly two elements: on a single
    tensor, on a tuple, on a list of another length. A list of two is
    accepted: build returns the built block and call does not raise that
    error. *)
Theorem UpSampleResnetBlock_rejects_non_pairs (self : UpSampleResnetBlock.t)
    (input_shape : PyArg (list Z)) (inputs : PyArg (Tensor elt)) training w :
  (result (UpSampleResnetBlock.build self input_shape) w
     = inl (ValueError UpSampleResnetBlock.not_a_pair)
   ↔ ¬ is_pair input_shape)
  ∧ (is_pair input_shape →
     ∃ self', result (UpSampleResnetBlock.build self input_shape) w = inr self')
  ∧ (result (UpSampleResnetBlock.call self inputs training) w
       = inl (ValueError UpSampleResnetBlock.not_a_pair)
     ↔ ¬ is_pair inputs).
Proof.
  assert (is_pair input_shape →
          ∃ self', result (UpSampleResnetBlock.build self input_shape) w = inr self')
    as Hbuild.
  { intros (a & b & ->). by eexists. }
  split; [split|split; [done|split]].
  - intros Hraise Hpair. destruct (Hbuild Hpair) as [self' Hself'].
    by rewrite Hself' in Hraise.
  - intros Hx. unfold UpSampleResnetBlock.build.
    rewrite result_bind. unfold result.
    by rewrite sanity_check_rejects.
  - intros Hraise Hpair.
    by apply (raises_only_UpSampleResnetBlock_call
                (λ e, e ≠ ValueError UpSampleResnetBlock.not_a_pair)
                not_a_pair_builtin self inputs training ltac:(done) Hpair w _ Hraise).
  - intros Hx. unfold UpSampleResnetBlock.call.
    rewrite result_bind. unfold result.
    by rewrite sanity_check_rejects.
Qed.

#[local] Arguments Deconv3dBlock.call : simpl never.
#[local] Arguments AdditiveUpSampling.call : simpl never.

Lemma UpSampleResnetBlock_constructed filters use_additive_upsampling self :
  constructed (UpSampleResnetBlock.__init__ filters use_additive_upsampling) self →
  ∃ uid,
    self = UpSampleResnetBlock.mk filters use_additive_upsampling None None
             (Conv3dBlock_at uid filters (PyInt 3) (PyInt 1) "same")
             (lu_conv3d (3 + uid) filters None (Some (PyInt 1)) None)
             (lu_batch_norm (4 + uid))
             (lu_act (5 + uid) "relu")
             false.
Proof.
  intros [w Hw]. exists (next_uid w). revert Hw.
  unfold UpSampleResnetBlock.__init__, result, mbind, M_bind.
  rewrite Conv3dBlock_constructed. cbn. by intros [= <-].
Qed.

End UpSampleResnetBlock_properties.

(** * Further properties of the layers *)

(** ** Deconv3D: index errors, the length formula, building once *)

Section Deconv3D_more.
Context `{TF : TensorFlow}.
Local Open Scope Z_scope.

Lemma py_index_run {A} (l : list A) i w :
  py_index l i w = (w, match l !! i with Some x => inr x | None => inl IndexError end).
Proof. unfold py_index. by destruct (l !! i). Qed.

Lemma output_padding_at_run os ins st ks i w :
  Deconv3D.output_padding_at os ins st ks i w
    = (w, if bool_decide (i < length os ∧ 1 + i < length ins
                          ∧ i < length st ∧ i < length ks)%nat
          then inr (expected_output_padding os ins st ks i)
          else inl IndexError).
Proof.
  unfold Deconv3D.output_padding_at, expected_output_padding, mbind, M_bind.
  rewrite (py_index_run _ _ w).
  destruct (os !! i) as [o|] eqn:Ho; cycle 1.
  { apply lookup_ge_None in Ho. rewrite bool_decide_eq_false_2; [done|lia]. }
  rewrite (py_index_run _ _ w).
  destruct (ins !! (1 + i)%nat) as [d|] eqn:Hd; cycle 1.
  { apply lookup_ge_None in Hd. rewrite bool_decide_eq_false_2; [done|lia]. }
  rewrite (py_index_run _ _ w).
  destruct (st !! i) as [s|] eqn:Hs; cycle 1.
  { apply lookup_ge_None in Hs. rewrite bool_decide_eq_false_2; [done|lia]. }
  rewrite (py_index_run _ _ w).
  destruct (ks !! i) as [k|] eqn:Hk; cycle 1.
  { apply lookup_ge_None in Hk. rewrite bool_decide_eq_false_2; [done|lia]. }
  rewrite (py_index_run _ _ w), Hk.
  rewrite bool_decide_eq_true_2.
  - cbn. by rewrite (nth_lookup_Some _ _ _ _ Ho), (nth_lookup_Some _ _ _ _ Hd),
      (nth_lookup_Some _ _ _ _ Hs), (nth_lookup_Some _ _ _ _ Hk).
  - apply lookup_lt_Some in Ho, Hd, Hs, Hk. lia.
Qed.

Lemma output_padding_comprehension os ins st ks w :
  list_comprehension (Deconv3D.output_padding_at os ins st ks) (seq 0 3) w
    = (w, if indexable os ins st ks
          then inr (expected_output_padding os ins st ks <$> seq 0 3)
          else inl IndexError).
Proof.
  cbn [seq list_comprehension]. unfold mbind, M_bind, indexable.
  destruct (decide (3 ≤ length os ∧ 4 ≤ length ins
                    ∧ 3 ≤ length st ∧ 3 ≤ length ks)%nat) as [Hlen|Hlen].
  - destruct Hlen as (Hos & Hins & Hst & Hks).
    apply Nat.leb_le in Hos as Hos', Hins as Hins', Hst as Hst', Hks as Hks'.
    rewrite Hos', Hins', Hst', Hks'.
    rewrite (output_padding_at_run _ _ _ _ 0%nat w), bool_decide_eq_true_2 by lia.
    rewrite (output_padding_at_run _ _ _ _ 1%nat w), bool_decide_eq_true_2 by lia.
    rewrite (output_padding_at_run _ _ _ _ 2%nat w), bool_decide_eq_true_2 by lia.
    done.
  - assert ((3 <=? length os) && (4 <=? length ins) && (3 <=? length st)
            && (3 <=? length ks) = false)%nat as ->.
    { apply not_true_iff_false. rewrite !andb_true_iff, !Nat.leb_le. tauto. }
    rewrite (output_padding_at_run _ _ _ _ 0%nat w).
    destruct (bool_decide_reflect (0 < length os ∧ 1 + 0 < length ins
                                   ∧ 0 < length st ∧ 0 < length ks)%nat); [|done].
    rewrite (output_padding_at_run _ _ _ _ 1%nat w).
    destruct (bool_decide_reflect (1 < length os ∧ 1 + 1 < length ins
                                   ∧ 1 < length st ∧ 1 < length ks)%nat); [|done].
    rewrite (output_padding_at_run _ _ _ _ 2%nat w).
    rewrite bool_decide_eq_false_2; [done|lia].
Qed.

Lemma Deconv3D_build_run (self : Deconv3D.t) input_shape w :
  Deconv3D.build self input_shape w
    = match Deconv3D._output_shape self with
      | Some output_shape =>
          let kernel_size := Deconv3D.triple (Deconv3D._kernel_size self) in
          let strides := Deconv3D.triple (Deconv3D._strides self) in
          if indexable output_shape input_shape strides kernel_size
          then build_with self "same"
                 (Some (expected_output_padding output_shape input_shape strides
                          kernel_size <$> seq 0 3)) w
          else (w, inl IndexError)
      | None => build_with self (Deconv3D._padding self) (Deconv3D._output_padding self) w
      end.
Proof.
  unfold Deconv3D.build, build_with, new_Conv3DTranspose.
  destruct (Deconv3D._output_shape self) as [os|].
  - unfold mbind, M_bind.
    rewrite (output_padding_comprehension _ _ _ _ w).
    destruct (indexable _ _ _ _); [|done].
    run. by destruct (keras_Conv3DTranspose _ _).
  - run. by destruct (keras_Conv3DTranspose _ _).
Qed.

(** X1. With an [output_shape], Deconv3D.build raises IndexError exactly
    when [output_shape], the strides or the kernel size have fewer than
    three elements or the input shape fewer than four, and it raises it
    before the transposed convolution is constructed. *)
Theorem Deconv3D_build_index_error (self : Deconv3D.t) input_shape output_shape w :
  Deconv3D._output_shape self = Some output_shape →
  (result (Deconv3D.build self input_shape) w = inl IndexError
   ↔ (length output_shape < 3 ∨ length input_shape < 4
      ∨ length (Deconv3D.triple (Deconv3D._strides self)) < 3
      ∨ length (Deconv3D.triple (Deconv3D._kernel_size self)) < 3)%nat)
  ∧ (result (Deconv3D.build self input_shape) w = inl IndexError →
     Deconv3D.build self input_shape w = (w, inl IndexError)).
Proof.
  intros Hos. unfold result. rewrite Deconv3D_build_run, Hos. cbn zeta.
  unfold indexable, build_with.
  destruct (Nat.leb_spec 3 (length output_shape));
    destruct (Nat.leb_spec 4 (length input_shape));
    destruct (Nat.leb_spec 3 (length (Deconv3D.triple (Deconv3D._strides self))));
    destruct (Nat.leb_spec 3 (length (Deconv3D.triple (Deconv3D._kernel_size self))));
    cbn; try (split; [split; [intros _; lia|done]|done]).
  destruct (keras_Conv3DTranspose _ _); cbn; (split; [split; [done|lia]|done]).
Qed.

(** X2. The output padding a successful build stores inverts the length
    formula of the docstring: a transposed convolution of the input with
    the stored strides, kernel size and output padding has, on each spatial
    axis, exactly the length [output_shape] asks for. *)
Theorem Deconv3D_build_output_length (self self' : Deconv3D.t) input_shape output_shape w :
  Deconv3D._output_shape self = Some output_shape →
  result (Deconv3D.build self input_shape) w = inr self' →
  ∃ output_padding,
    Deconv3D._output_padding self' = Some output_padding
    ∧ Deconv3D._padding self' = "same"
    ∧ ∀ i, (i < 3)%nat →
        deconv_output_length (nth (1 + i) input_shape 0)
          (nth i (Deconv3D.triple (Deconv3D._strides self')) 0)
          (nth i (Deconv3D.triple (Deconv3D._kernel_size self')) 0)
          (nth i output_padding 0)
        = nth i output_shape 0.
Proof.
  intros Hos. unfold result. rewrite Deconv3D_build_run, Hos. cbn zeta.
  destruct (indexable _ _ _ _); [|done]. unfold build_with. cbn.
  destruct (keras_Conv3DTranspose _ _) as [e|layer]; [done|].
  intros [= <-]. eexists. split; [done|]. split; [done|].
  intros i Hi. cbn [Deconv3D._strides Deconv3D._kernel_size Deconv3D.triple].
  unfold deconv_output_length.
  destruct i as [|[|[|]]]; [| | |lia]; cbn [fmap list_fmap seq nth];
    unfold expected_output_padding; cbn [Nat.add]; lia.
Qed.

(** X3. The stored output padding depends on the kernel size only through
    its parity: on axis [i] it is [output_shape[i] - ((input_shape[1+i] - 1)
    * strides[i] + kernel_size[i] % 2)]. *)
Theorem Deconv3D_build_kernel_parity (self self' : Deconv3D.t) input_shape output_shape w :
  Deconv3D._output_shape self = Some output_shape →
  result (Deconv3D.build self input_shape) w = inr self' →
  ∃ output_padding,
    Deconv3D._output_padding self' = Some output_padding
    ∧ length output_padding = 3%nat
    ∧ ∀ i, (i < 3)%nat →
        nth i output_padding 0
        = nth i output_shape 0
          - ((nth (1 + i) input_shape 0 - 1)
             * nth i (Deconv3D.triple (Deconv3D._strides self)) 0
             + nth i (Deconv3D.triple (Deconv3D._kernel_size self)) 0 `mod` 2).
Proof.
  intros Hos. unfold result. rewrite Deconv3D_build_run, Hos. cbn zeta.
  destruct (indexable _ _ _ _); [|done]. unfold build_with. cbn.
  destruct (keras_Conv3DTranspose _ _) as [e|layer]; [done|].
  intros [= <-]. eexists. split; [done|]. split; [done|].
  intros i Hi.
  destruct i as [|[|[|]]]; [| | |lia]; cbn [fmap list_fmap seq nth];
    unfold expected_output_padding; cbn [Nat.add];
    match goal with
    | |- context [?k `div` 2] => pose proof (Z.div_mod k 2)
    end; lia.
Qed.

(** X4. Building a built layer again on the same input shape hands the
    transposed convolution the arguments of the first build. *)
Theorem Deconv3D_rebuild_same_arguments (self self' : Deconv3D.t) input_shape w w' :
  result (Deconv3D.build self input_shape) w = inr self' →
  ∃ args,
    trace_after (Deconv3D.build self input_shape) w = trace w ++ [EvConv3DTranspose args]
    ∧ trace_after (Deconv3D.build self' input_shape) w'
      = trace w' ++ [EvConv3DTranspose args].
Proof.
  unfold result, trace_after. rewrite !Deconv3D_build_run.
  destruct (Deconv3D._output_shape self) as [os|] eqn:Hos; cbn zeta.
  - destruct (indexable _ _ _ _) eqn:Hidx; [|done]. unfold build_with at 1 2. cbn.
    destruct (keras_Conv3DTranspose _ _) as [e|layer]; [done|].
    intros [= <-]. cbn. rewrite Hos, Hidx. eexists. split; done.
  - unfold build_with at 1 2. cbn.
    destruct (keras_Conv3DTranspose _ _) as [e|layer]; [done|].
    intros [= <-]. cbn. rewrite Hos. eexists. split; done.
Qed.

Lemma Deconv3D___call___run (self : Deconv3D.t) (inputs : Tensor elt) w :
  Deconv3D.__call__ self inputs w
    = let '(w1, r) := if Deconv3D.built self then (w, inr self)
                      else Deconv3D.build self (shape inputs) w in
      match r with
      | inl e => (w1, inl e)
      | inr s =>
          (w1, match Deconv3D._Conv3DTranspose s with
               | Some layer =>
                   match layer inputs with
                   | inl e => inl (FrameworkError e)
                   | inr output => inr (s, output)
                   end
               | None => inl TypeError
               end)
      end.
Proof.
  unfold Deconv3D.__call__, Deconv3D.call, call_layer, mbind, M_bind.
  destruct (Deconv3D.built self).
  - cbn. destruct (Deconv3D._Conv3DTranspose self) as [layer|]; [|done].
    unfold lift_tf. by destruct (layer inputs).
  - destruct (Deconv3D.build self (shape inputs) w) as [w1 [e|s]]; [done|].
    destruct (Deconv3D._Conv3DTranspose s) as [layer|]; [|done].
    unfold lift_tf. by destruct (layer inputs).
Qed.

Lemma Deconv3D_build_ready (self self' : Deconv3D.t) input_shape w :
  result (Deconv3D.build self input_shape) w = inr self' →
  Deconv3D.built self' = true ∧ is_Some (Deconv3D._Conv3DTranspose self').
Proof.
  unfold result. rewrite Deconv3D_build_run.
  destruct (Deconv3D._output_shape self); cbn zeta;
    [destruct (indexable _ _ _ _); [|done]|];
    unfold build_with; cbn;
    (destruct (keras_Conv3DTranspose _ _) as [e|layer]; [done|]);
    intros [= <-]; eauto.
Qed.

(** X5. A layer is built once: the first call builds it, and every later
    call, whatever the shape of its input, constructs nothing, leaves the
    layer as it is and so keeps the output padding of the first input.
    No call finds the transposed convolution missing. *)
Theorem Deconv3D_call_builds_once (self : Deconv3D.t) (inputs : Tensor elt) w :
  ready self →
  result (Deconv3D.__call__ self inputs) w ≠ inl TypeError
  ∧ ∀ self' output,
      result (Deconv3D.__call__ self inputs) w = inr (self', output) →
      Deconv3D.built self' = true
      ∧ ready self'
      ∧ ∀ (inputs' : Tensor elt) w',
          fst (Deconv3D.__call__ self' inputs' w') = w'
          ∧ ∀ self'' output',
              result (Deconv3D.__call__ self' inputs') w' = inr (self'', output') →
              self'' = self'.
Proof.
  intros Hready.
  assert (∀ s' y, result (Deconv3D.__call__ self inputs) w = inr (s', y) →
            Deconv3D.built s' = true ∧ is_Some (Deconv3D._Conv3DTranspose s')) as Hafter.
  { intros s' y. unfold result. rewrite Deconv3D___call___run.
    destruct (Deconv3D.built self) eqn:Hb.
    - destruct (Hready Hb) as [layer Hl]. cbn. rewrite Hl.
      destruct (layer inputs); [done|]. intros [= <- _]. eauto.
    - pose proof (λ s, Deconv3D_build_ready self s (shape inputs) w) as Hbuild.
      unfold result in Hbuild.
      destruct (Deconv3D.build self (shape inputs) w) as [w1 [e|s]]; [done|].
      destruct (Hbuild s eq_refl) as [Hb' [layer Hl]]. cbn. rewrite Hl.
      destruct (layer inputs); [done|]. intros [= <- _]. eauto. }
  split.
  - unfold result. rewrite Deconv3D___call___run.
    destruct (Deconv3D.built self) eqn:Hb.
    + destruct (Hready Hb) as [layer Hl]. cbn. rewrite Hl. by destruct (layer inputs).
    + pose proof (λ s, Deconv3D_build_ready self s (shape inputs) w) as Hbuild.
      unfold result in Hbuild.
      pose proof (Deconv3D_build_run self (shape inputs) w) as Hrun.
      destruct (Deconv3D.build self (shape inputs) w) as [w1 [e|s]].
      * cbn. intros [= ->]. revert Hrun.
        destruct (Deconv3D._output_shape self); cbn zeta;
          [destruct (indexable _ _ _ _); [|done]|];
          unfold build_with; by destruct (keras_Conv3DTranspose _ _).
      * destruct (Hbuild s eq_refl) as [Hb' [layer Hl]]. cbn. rewrite Hl.
        by destruct (layer inputs).
  - intros self' output Hcall.
    destruct (Hafter _ _ Hcall) as [Hb' [layer Hl']].
    split; [done|]. split; [by intros _; eexists|].
    intros inputs' w'. unfold result. rewrite Deconv3D___call___run, Hb'. cbn.
    rewrite Hl'. split; [done|].
    intros s'' o'. destruct (layer inputs'); [done|]. by intros [= <- _].
Qed.
End Deconv3D_more.

(** ** Which framework operations the layers perform *)

Lemma trace_after_bind {A B} (m : M A) (f : A → M B) w :
  trace_after (m ≫= f) w =
    match result m w with
    | inl e => trace_after m w
    | inr x => trace_after (f x) (fst (m w))
    end.
Proof. unfold trace_after, result, mbind, M_bind. by destruct (m w) as [w' [e|x]]. Qed.

Section emits.
Context `{TF : TensorFlow} {LU : LayerUtil}.
Context (Q : Event → Prop).

Lemma emits_ret {A} (x : A) : emits Q (mret x).
Proof. intros w. exists []. by rewrite app_nil_r. Qed.

Lemma emits_raise {A} e : emits Q (raise (A := A) e).
Proof. intros w. exists []. by rewrite app_nil_r. Qed.

Lemma emits_bind {A B} (m : M A) (f : A → M B) :
  emits Q m → (∀ x, emits Q (f x)) → emits Q (m ≫= f).
Proof.
  intros Hm Hf w. destruct (Hm w) as (evs1 & H1 & HQ1).
  unfold mbind, M_bind. destruct (m w) as [w1 [e|x]]; [by exists evs1|].
  destruct (Hf x w1) as (evs2 & H2 & HQ2). exists (evs1 ++ evs2).
  cbn in H1. rewrite H2, H1, app_assoc. split; [done|]. by apply Forall_app.
Qed.

Lemma emits_log ev : Q ev → emits Q (log ev).
Proof. intros Hev w. exists [ev]. split; [done|]. by apply Forall_singleton. Qed.

Lemma emits_fresh_uid : emits Q fresh_uid.
Proof. intros w. exists []. by rewrite app_nil_r. Qed.

Lemma emits_lift_tf {A} (r : TfError + A) : emits Q (lift_tf r).
Proof. destruct r; [apply emits_raise|apply emits_ret]. Qed.

Lemma emits_py_index {A} (l : list A) i : emits Q (py_index l i).
Proof. unfold py_index. destruct (l !! i); [apply emits_ret|apply emits_raise]. Qed.

Lemma emits_tensor_add (a b : Tensor elt) : emits Q (tensor_add a b).
Proof. unfold tensor_add. case_decide; [apply emits_ret|apply emits_lift_tf]. Qed.

Lemma emits_Conv3dBlock_call (self : Conv3dBlock.t) (inputs : Tensor elt) training :
  emits Q (Conv3dBlock.call self inputs training).
Proof.
  unfold Conv3dBlock.call, call_layer, call_training_layer.
  repeat first [apply emits_lift_tf | apply emits_ret | apply emits_bind; [|intros ?]].
Qed.

Lemma emits_list_comprehension {A} (f : nat → M A) range :
  (∀ i, emits Q (f i)) → emits Q (list_comprehension f range).
Proof.
  intros Hf. induction range as [|i range IH]; cbn [list_comprehension].
  - apply emits_ret.
  - apply emits_bind; [done|]. intros x.
    apply emits_bind; [done|]. intros xs. apply emits_ret.
Qed.

Context (HQ : ∀ args, Q (EvConv3DTranspose args)).

Lemma emits_Deconv3D___call__ (self : Deconv3D.t) (inputs : Tensor elt) :
  emits Q (Deconv3D.__call__ self inputs).
Proof.
  unfold Deconv3D.__call__, Deconv3D.build, Deconv3D.call, new_Conv3DTranspose,
    call_layer.
  repeat first
    [ apply emits_list_comprehension; intros ?; unfold Deconv3D.output_padding_at
    | apply emits_ret | apply emits_raise | apply emits_lift_tf | apply emits_py_index
    | apply emits_fresh_uid | apply emits_log, HQ
    | apply emits_bind; [|intros ?]
    | case_match ].
Qed.

Lemma emits_Deconv3dBlock_call (self : Deconv3dBlock.t) (inputs : Tensor elt) training :
  emits Q (Deconv3dBlock.call self inputs training).
Proof.
  unfold Deconv3dBlock.call, call_layer, call_training_layer.
  apply emits_bind; [apply emits_Deconv3D___call__|]. intros [deconv output].
  repeat first [apply emits_lift_tf | apply emits_ret | apply emits_bind; [|intros ?]].
Qed.

Context (HQtf : ∀ ev, ¬ is_construction ev → Q ev).

Lemma emits_py_mod a b : emits Q (py_mod a b).
Proof. unfold py_mod. case_decide; [apply emits_raise|apply emits_ret]. Qed.

(** Decompose a method into its binds; the events are not constructions. *)
Ltac emits_steps :=
  repeat first
    [ apply emits_ret | apply emits_raise | apply emits_lift_tf | apply emits_py_index
    | apply emits_py_mod | apply emits_log, HQtf; by intros [? [=]]
    | apply emits_bind; [|intros ?]
    | case_match ].

Lemma emits_tf_reshape (t : Tensor elt) s : emits Q (tf_reshape t s).
Proof. unfold tf_reshape, invalid_argument. emits_steps. Qed.

Lemma emits_tf_image_resize (t : Tensor elt) size method :
  emits Q (tf_image_resize t size method).
Proof. unfold tf_image_resize, invalid_argument. emits_steps. Qed.

Lemma emits_tf_split (t : Tensor elt) num axis : emits Q (tf_split t num axis).
Proof. unfold tf_split, invalid_argument. emits_steps. Qed.

Lemma emits_tf_stack (ts : list (Tensor elt)) axis : emits Q (tf_stack ts axis).
Proof. unfold tf_stack, invalid_argument. emits_steps. Qed.

Lemma emits_tf_reduce_sum (t : Tensor elt) axis : emits Q (tf_reduce_sum t axis).
Proof. unfold tf_reduce_sum, invalid_argument. emits_steps. Qed.

Lemma emits_Resize3d_call (self : Resize3d.t) (inputs : Tensor elt) :
  emits Q (Resize3d.call self inputs).
Proof.
  unfold Resize3d.call.
  repeat first
    [ apply emits_tf_reshape | apply emits_tf_image_resize | apply emits_py_index
    | apply emits_bind; [|intros ?] ].
Qed.

Lemma emits_AdditiveUpSampling_call (self : AdditiveUpSampling.t) (inputs : Tensor elt) :
  emits Q (AdditiveUpSampling.call self inputs).
Proof.
  unfold AdditiveUpSampling.call.
  repeat first
    [ apply emits_Resize3d_call | apply emits_tf_split | apply emits_tf_stack
    | apply emits_tf_reduce_sum | apply emits_raise | apply emits_py_index
    | apply emits_py_mod
    | apply emits_bind; [|intros ?]
    | case_decide ].
Qed.

Lemma emits_UpSampleResnetBlock_call (self : UpSampleResnetBlock.t)
    (inputs : PyArg (Tensor elt)) training :
  emits Q (UpSampleResnetBlock.call self inputs training).
Proof.
  unfold UpSampleResnetBlock.call, UpSampleResnetBlock.sanity_check, call_layer,
    call_training_layer.
  repeat first
    [ apply emits_Deconv3dBlock_call
    | apply emits_Conv3dBlock_call
    | apply emits_AdditiveUpSampling_call
    | apply emits_tensor_add
    | apply emits_ret | apply emits_raise | apply emits_lift_tf | apply emits_py_index
    | apply emits_bind; [|intros ?]
    | case_match ].
Qed.
End emits.

(** ** Exceptions of layers whose sub-layers are in place *)

Section raises_when_ready.
Context `{TF : TensorFlow} {LU : LayerUtil}.
Context (P : Exn → Prop).
Context (HI : P IndexError) (HZ : P ZeroDivisionError)
        (HF : ∀ e, P (FrameworkError e)) (HV : ∀ msg, P (ValueError msg)).

Lemma ready_raises_lift_tf {A} (r : TfError + A) : raises_only P (lift_tf r).
Proof. destruct r; cbn; [by apply raises_only_raise|apply raises_only_ret]. Qed.

Lemma ready_raises_py_index {A} (l : list A) i : raises_only P (py_index l i).
Proof.
  unfold py_index. destruct (l !! i); [apply raises_only_ret|by apply raises_only_raise].
Qed.

Lemma ready_raises_py_mod a b : raises_only P (py_mod a b).
Proof.
  unfold py_mod. case_decide; [by apply raises_only_raise|apply raises_only_ret].
Qed.

Lemma ready_raises_invalid_argument {A} msg :
  raises_only P (invalid_argument (A := A) msg).
Proof. by apply raises_only_raise. Qed.

Lemma ready_raises_framework_error {A} e :
  raises_only P (raise (A := A) (FrameworkError e)).
Proof. by apply raises_only_raise. Qed.

Ltac ready_steps :=
  repeat first
    [ apply raises_only_ret
    | apply ready_raises_invalid_argument
    | apply ready_raises_framework_error
    | apply raises_only_log
    | apply raises_only_fresh_uid
    | apply ready_raises_lift_tf
    | apply ready_raises_py_index
    | apply ready_raises_py_mod
    | apply raises_only_bind; [|intros ?]
    | case_match ].

Lemma ready_raises_tf_reshape (t : Tensor elt) s : raises_only P (tf_reshape t s).
Proof. unfold tf_reshape. ready_steps. Qed.

Lemma ready_raises_tf_image_resize (t : Tensor elt) size method :
  raises_only P (tf_image_resize t size method).
Proof. unfold tf_image_resize. ready_steps. Qed.

Lemma ready_raises_tf_split (t : Tensor elt) num axis :
  raises_only P (tf_split t num axis).
Proof. unfold tf_split. ready_steps. Qed.

Lemma ready_raises_tf_stack (ts : list (Tensor elt)) axis :
  raises_only P (tf_stack ts axis).
Proof. unfold tf_stack. ready_steps. Qed.

Lemma ready_raises_tf_reduce_sum (t : Tensor elt) axis :
  raises_only P (tf_reduce_sum t axis).
Proof. unfold tf_reduce_sum. ready_steps. Qed.

Lemma ready_raises_tensor_add (a b : Tensor elt) : raises_only P (tensor_add a b).
Proof. unfold tensor_add. ready_steps. Qed.

Lemma ready_raises_Resize3d_call (self : Resize3d.t) (inputs : Tensor elt) :
  raises_only P (Resize3d.call self inputs).
Proof.
  unfold Resize3d.call.
  repeat first
    [ apply ready_raises_tf_reshape | apply ready_raises_tf_image_resize
    | apply ready_raises_py_index | apply raises_only_bind; [|intros ?] ].
Qed.

Lemma ready_raises_AdditiveUpSampling_call (self : AdditiveUpSampling.t)
    (inputs : Tensor elt) :
  raises_only P (AdditiveUpSampling.call self inputs).
Proof.
  unfold AdditiveUpSampling.call.
  repeat first
    [ apply ready_raises_Resize3d_call | apply ready_raises_tf_split
    | apply ready_raises_tf_stack | apply ready_raises_tf_reduce_sum
    | apply raises_only_raise, HV
    | apply ready_raises_py_index | apply ready_raises_py_mod
    | apply raises_only_bind; [|intros ?]
    | case_decide ].
Qed.

Lemma ready_raises_Conv3dBlock_call (self : Conv3dBlock.t) (inputs : Tensor elt) training :
  raises_only P (Conv3dBlock.call self inputs training).
Proof. unfold Conv3dBlock.call, call_layer, call_training_layer. ready_steps. Qed.

Lemma ready_raises_Deconv3D___call__ (self : Deconv3D.t) (inputs : Tensor elt) :
  ready self → raises_only P (Deconv3D.__call__ self inputs).
Proof.
  intros Hready w e. unfold result. rewrite Deconv3D___call___run.
  destruct (Deconv3D.built self) eqn:Hb.
  - destruct (Hready Hb) as [layer Hl]. cbn. rewrite Hl.
    destruct (layer inputs); [|done]. by intros [= <-].
  - pose proof (λ s, Deconv3D_build_ready self s (shape inputs) w) as Hbuild.
    unfold result in Hbuild.
    pose proof (Deconv3D_build_run self (shape inputs) w) as Hrun.
    destruct (Deconv3D.build self (shape inputs) w) as [w1 [e1|s]].
    + cbn. intros [= <-]. revert Hrun.
      destruct (Deconv3D._output_shape self); cbn zeta;
        [destruct (indexable _ _ _ _); [|by intros [= _ ->]]|];
        unfold build_with; (destruct (keras_Conv3DTranspose _ _); [|done]);
        by intros [= _ ->].
    + destruct (Hbuild s eq_refl) as [Hb' [layer Hl]]. cbn. rewrite Hl.
      destruct (layer inputs); [|done]. by intros [= <-].
Qed.

Lemma ready_raises_Deconv3dBlock_call (self : Deconv3dBlock.t) (inputs : Tensor elt)
    training :
  ready (Deconv3dBlock._deconv3d self) →
  raises_only P (Deconv3dBlock.call self inputs training).
Proof.
  intros Hready. unfold Deconv3dBlock.call, call_layer, call_training_layer.
  apply raises_only_bind; [by apply ready_raises_Deconv3D___call__|].
  intros [deconv output]. ready_steps.
Qed.
End raises_when_ready.

(** ** UpSampleResnetBlock and DownSampleResnetBlock: lazy building, errors *)

Section UpSampleResnetBlock_more.
Context `{TF : TensorFlow} {LU : LayerUtil}.
Local Open Scope Z_scope.

#[local] Arguments Deconv3dBlock.call : simpl never.
#[local] Arguments AdditiveUpSampling.call : simpl never.
#[local] Arguments Conv3dBlock.call : simpl never.

(** The first call of a block: build creates the sub-layers for the shape
    of the skip tensor, taking two uids, and call runs on the built block. *)
Lemma UpSampleResnetBlock___call___first (self : UpSampleResnetBlock.t)
    (nonskip skip : Tensor elt) training w :
  UpSampleResnetBlock.built self = false →
  UpSampleResnetBlock.__call__ self (ListOf [nonskip; skip]) training w
    = UpSampleResnetBlock.call
        (UpSampleResnetBlock.mk (UpSampleResnetBlock._filters self)
           (UpSampleResnetBlock._use_additive_upsampling self)
           (Some (fresh_deconv_block (UpSampleResnetBlock._filters self) (shape skip)
                    (next_uid w)))
           (if UpSampleResnetBlock._use_additive_upsampling self
            then Some (AdditiveUpSampling.__init__ (take 3 (drop 1 (shape skip))) 2)
            else UpSampleResnetBlock._additive_upsampling self)
           (UpSampleResnetBlock._conv3d_block self) (UpSampleResnetBlock._conv3d self)
           (UpSampleResnetBlock._batch_norm self) (UpSampleResnetBlock._relu self) true)
        (ListOf [nonskip; skip]) training
        (mkWorld (trace w) (S (S (next_uid w)))).
Proof. intros Hb. unfold UpSampleResnetBlock.__call__. by rewrite Hb. Qed.

Lemma fresh_deconv_block_call filters skip_shape uid (nonskip : Tensor elt) training w :
  Deconv3dBlock.call (fresh_deconv_block filters skip_shape uid) nonskip training w
    = let os := take 3 (drop 1 skip_shape) in
      if indexable os (shape nonskip) [2; 2; 2] [3; 3; 3] then
        let args := mkConv3DTransposeArgs filters [3; 3; 3] [2; 2; 2] "same"
                      (Some (expected_output_padding os (shape nonskip) [2; 2; 2]
                               [3; 3; 3] <$> seq 0 3)) [] in
        (mkWorld (trace w ++ [EvConv3DTranspose args]) (S (next_uid w)),
         result (Deconv3dBlock.call (fresh_deconv_block filters skip_shape uid)
                   nonskip training) w)
      else (w, inl IndexError).
Proof.
  unfold result, Deconv3dBlock.call, fresh_deconv_block, mbind, M_bind.
  cbn [Deconv3dBlock._deconv3d].
  rewrite Deconv3D___call___run. cbn [Deconv3D.built Deconv3D.__init__].
  rewrite Deconv3D_build_run. cbn.
  destruct (indexable _ _ _ _); [|done].
  unfold build_with. cbn.
  destruct (keras_Conv3DTranspose _ _) as [e|layer]; [done|]. cbn.
  destruct (layer nonskip) as [e|y]; [done|].
  unfold call_training_layer, call_layer. cbn.
  destruct (lu_batch_norm uid y training) as [e|z]; [done|]. cbn.
  by destruct (lu_act (S uid) "relu" z).
Qed.

Lemma not_indexable_short_skip (skip_shape input_shape strides kernel_size : list Z) :
  (length skip_shape < 4)%nat →
  indexable (take 3 (drop 1 skip_shape)) input_shape strides kernel_size = false.
Proof.
  intros Hlen. unfold indexable.
  rewrite length_take, length_drop.
  destruct (Nat.leb_spec 3 (3 `min` (length skip_shape - 1))); [lia|done].
Qed.

(** X14. A skip tensor of fewer than four axes is not rejected by build:
    the first call then fails with IndexError while computing the output
    padding, before any transposed convolution is constructed. *)
Theorem UpSampleResnetBlock_short_skip filters use_additive_upsampling
    (self : UpSampleResnetBlock.t) (nonskip skip : Tensor elt) training w :
  constructed (UpSampleResnetBlock.__init__ filters use_additive_upsampling) self →
  (length (shape skip) < 4)%nat →
  (∃ self', result (UpSampleResnetBlock.build self
                      (ListOf [shape nonskip; shape skip])) w = inr self')
  ∧ UpSampleResnetBlock.__call__ self (ListOf [nonskip; skip]) training w
    = (mkWorld (trace w) (S (S (next_uid w))), inl IndexError).
Proof.
  intros [uid ->]%UpSampleResnetBlock_constructed Hskip.
  split; [by eexists|].
  rewrite UpSampleResnetBlock___call___first by done.
  unfold UpSampleResnetBlock.call, mbind, M_bind. cbn.
  rewrite fresh_deconv_block_call. cbn zeta.
  by rewrite not_indexable_short_skip.
Qed.

(** X12. The first call of a block on 5-D tensors constructs, before any
    other framework operation, a transposed convolution with kernel size
    3, strides 2, padding "same" and, on each spatial axis, the output
    padding [skip_dim - 2 * nonskip_dim + 1]. *)
Theorem UpSampleResnetBlock_call_constructs_deconv filters use_additive_upsampling
    (self : UpSampleResnetBlock.t) (nonskip skip : Tensor elt) training
    b n1 n2 n3 c sb s1 s2 s3 sc w :
  constructed (UpSampleResnetBlock.__init__ filters use_additive_upsampling) self →
  shape nonskip = [b; n1; n2; n3; c] →
  shape skip = [sb; s1; s2; s3; sc] →
  ∃ rest,
    trace_after (UpSampleResnetBlock.__call__ self (ListOf [nonskip; skip]) training) w
    = trace w
      ++ EvConv3DTranspose
           (mkConv3DTransposeArgs filters [3; 3; 3] [2; 2; 2] "same"
              (Some [s1 - 2 * n1 + 1; s2 - 2 * n2 + 1; s3 - 2 * n3 + 1]) [])
         :: rest.
Proof.
  intros [uid ->]%UpSampleResnetBlock_constructed Hnonskip Hskip.
  unfold trace_after. rewrite UpSampleResnetBlock___call___first by done.
  cbn [UpSampleResnetBlock._filters UpSampleResnetBlock._use_additive_upsampling
       UpSampleResnetBlock._additive_upsampling UpSampleResnetBlock._conv3d_block
       UpSampleResnetBlock._conv3d UpSampleResnetBlock._batch_norm
       UpSampleResnetBlock._relu].
  match goal with
  | |- context [trace (fst (?m ?w0))] =>
      change (trace (fst (m w0))) with (trace_after m w0)
  end.
  unfold UpSampleResnetBlock.call.
  do 4 (rewrite trace_after_bind; unfold result at 1;
        cbn [snd fst mret M_ret py_index lookup list_lookup
             UpSampleResnetBlock.sanity_check length Nat.eqb negb
             UpSampleResnetBlock._deconv3d_block]).
  unfold trace_after at 1.
  rewrite fresh_deconv_block_call. cbn zeta.
  rewrite Hnonskip, Hskip. cbn [take drop indexable length Nat.leb andb fst snd].
  replace (expected_output_padding [s1; s2; s3] [b; n1; n2; n3; c] [2; 2; 2] [3; 3; 3]
             <$> seq 0 3)
    with [s1 - 2 * n1 + 1; s2 - 2 * n2 + 1; s3 - 2 * n3 + 1]
    by (unfold expected_output_padding; cbn [fmap list_fmap seq nth Nat.add];
        change (3 `div` 2) with 1; f_equal; [|f_equal; [|f_equal]]; lia).
  destruct (result _ _) as [e|[deconv h0]].
  { exists []. done. }
  match goal with
  | |- context [trace_after ?m ?w0] =>
      assert (emits (λ _, True) m) as Hrest;
      [|destruct (Hrest w0) as (events & Hevents & _)]
  end.
  { unfold call_layer, call_training_layer.
    repeat first
      [ apply emits_Conv3dBlock_call
      | apply emits_AdditiveUpSampling_call; done
      | apply emits_tensor_add
      | apply emits_ret | apply emits_raise | apply emits_lift_tf
      | apply emits_bind; [|intros ?]
      | case_match ]. }
  exists events. unfold trace_after. rewrite Hevents. cbn [trace].
  by rewrite <- app_assoc.
Qed.

Lemma construction_only args : is_construction (EvConv3DTranspose args).
Proof. by exists args. Qed.

(** X13. Without additive upsampling a call on a pair raises no ValueError
    of this file, whatever the channel counts, and the only framework
    operation it performs is the construction of a transposed convolution:
    it never resizes, splits, stacks or sums. *)
Theorem UpSampleResnetBlock_without_additive (self : UpSampleResnetBlock.t)
    (nonskip skip : Tensor elt) training :
  UpSampleResnetBlock._use_additive_upsampling self = false →
  raises_only (λ e, ∀ msg, e ≠ ValueError msg)
    (UpSampleResnetBlock.call self (ListOf [nonskip; skip]) training)
  ∧ emits is_construction
      (UpSampleResnetBlock.call self (ListOf [nonskip; skip]) training).
Proof.
  intros Hflag. unfold UpSampleResnetBlock.call, call_layer, call_training_layer.
  rewrite Hflag. split.
  - pose proof not_a_configuration_error_builtin as HP.
    apply raises_only_bind; [by intros w e|]. intros tensors.
    repeat first
      [ apply (raises_only_Deconv3dBlock_call _ HP)
      | apply (raises_only_Conv3dBlock_call _ HP)
      | apply (raises_only_tensor_add _ HP)
      | apply raises_only_raise, HP
      | apply raises_only_ret
      | apply (raises_only_lift_tf _ HP)
      | apply (raises_only_py_index _ HP)
      | apply raises_only_bind; [|intros ?]
      | case_match ].
  - apply emits_bind; [intros w; exists []; by rewrite app_nil_r|]. intros tensors.
    repeat first
      [ apply emits_Deconv3dBlock_call, construction_only
      | apply emits_Conv3dBlock_call
      | apply emits_tensor_add
      | apply emits_ret | apply emits_raise | apply emits_lift_tf | apply emits_py_index
      | apply emits_bind; [|intros ?]
      | case_match ].
Qed.

(** X15. The first call of a freshly constructed block never calls a
    sub-layer it has not created: whatever the block is first called on,
    that call does not fail with TypeError.  Later calls of a block whose
    first call raised are not covered: the state a failed build leaves
    behind is outside the model (see [Deconv3D.build]). *)
Theorem UpSampleResnetBlock_sublayers_in_place filters use_additive_upsampling
    (self : UpSampleResnetBlock.t) (inputs : PyArg (Tensor elt)) training w :
  constructed (UpSampleResnetBlock.__init__ filters use_additive_upsampling) self →
  result (UpSampleResnetBlock.__call__ self inputs training) w ≠ inl TypeError.
Proof.
  intros [uid ->]%UpSampleResnetBlock_constructed.
  destruct inputs as [x|l|l]; [done| |done].
  destruct l as [|nonskip [|skip [|]]]; [done|done| |done].
  unfold result. rewrite UpSampleResnetBlock___call___first by done.
  intros Hraise.
  refine ((_ : raises_only (λ e, e ≠ TypeError) _) _ _ Hraise eq_refl).
  unfold UpSampleResnetBlock.call, call_layer, call_training_layer.
  cbn [UpSampleResnetBlock._deconv3d_block UpSampleResnetBlock._use_additive_upsampling
       UpSampleResnetBlock._additive_upsampling UpSampleResnetBlock._conv3d_block
       UpSampleResnetBlock._conv3d UpSampleResnetBlock._batch_norm
       UpSampleResnetBlock._relu UpSampleResnetBlock._filters].
  apply raises_only_bind; [by intros w0 e|]. intros tensors.
  destruct use_additive_upsampling;
    repeat first
      [ apply ready_raises_Deconv3dBlock_call; [done..|by intros [=]]
      | apply ready_raises_Conv3dBlock_call; done
      | apply ready_raises_AdditiveUpSampling_call; done
      | apply ready_raises_tensor_add; done
      | apply raises_only_ret
      | apply ready_raises_lift_tf; done
      | apply ready_raises_py_index; done
      | apply raises_only_bind; [|intros ?]
      | case_match ].
Qed.

Lemma Deconv3dBlock_call_returns (block block' : Deconv3dBlock.t) (inputs output : Tensor elt)
    training w :
  ready (Deconv3dBlock._deconv3d block) →
  result (Deconv3dBlock.call block inputs training) w = inr (block', output) →
  Deconv3D.built (Deconv3dBlock._deconv3d block') = true
  ∧ is_Some (Deconv3D._Conv3DTranspose (Deconv3dBlock._deconv3d block')).
Proof.
  intros Hready. unfold Deconv3dBlock.call. rewrite result_bind.
  destruct (result (Deconv3D.__call__ _ inputs) w) as [e|[deconv y]] eqn:Hcall; [done|].
  assert (Deconv3D.built deconv = true ∧ is_Some (Deconv3D._Conv3DTranspose deconv))
    as Hdeconv.
  { revert Hcall. unfold result. rewrite Deconv3D___call___run.
    destruct (Deconv3D.built (Deconv3dBlock._deconv3d block)) eqn:Hb.
    - destruct (Hready Hb) as [layer Hl]. cbn. rewrite Hl.
      destruct (layer inputs); [done|]. intros [= <- _]. eauto.
    - pose proof (λ s, Deconv3D_build_ready (Deconv3dBlock._deconv3d block) s
                         (shape inputs) w) as Hbuild.
      unfold result in Hbuild.
      destruct (Deconv3D.build _ (shape inputs) w) as [w1 [e1|s]]; [done|].
      destruct (Hbuild s eq_refl) as [Hb' [layer Hl]]. cbn. rewrite Hl.
      destruct (layer inputs); [done|]. intros [= <- _]. eauto. }
  repeat (rewrite result_bind; case_match; [done|]).
  unfold result. cbn. by intros [= <- _].
Qed.

Lemma emits_built_Deconv3dBlock_call Q (block : Deconv3dBlock.t) (inputs : Tensor elt)
    training :
  Deconv3D.built (Deconv3dBlock._deconv3d block) = true →
  emits Q (Deconv3dBlock.call block inputs training).
Proof.
  intros Hb. unfold Deconv3dBlock.call, call_layer, call_training_layer.
  apply emits_bind.
  - intros w. exists []. rewrite app_nil_r, Deconv3D___call___run, Hb. split; [|done].
    by destruct (Deconv3D._Conv3DTranspose _) as [layer|].
  - intros [deconv output].
    repeat first [apply emits_lift_tf | apply emits_ret | apply emits_bind; [|intros ?]].
Qed.

(** X17. A block builds once. After a first call on a pair has returned,
    no later call of the returned block, whatever its input, constructs a
    transposed convolution: the one built for the first shapes, with its
    output padding, is used again. *)
Theorem UpSampleResnetBlock_builds_once filters use_additive_upsampling
    (self self' : UpSampleResnetBlock.t) (nonskip skip h1 : Tensor elt) training w :
  constructed (UpSampleResnetBlock.__init__ filters use_additive_upsampling) self →
  result (UpSampleResnetBlock.__call__ self (ListOf [nonskip; skip]) training) w
    = inr (self', h1) →
  UpSampleResnetBlock.built self' = true
  ∧ ∀ (inputs : PyArg (Tensor elt)) training',
      emits (λ ev, ¬ is_construction ev)
        (UpSampleResnetBlock.__call__ self' inputs training').
Proof.
  intros [uid ->]%UpSampleResnetBlock_constructed.
  unfold result at 1. rewrite UpSampleResnetBlock___call___first by done.
  cbn [UpSampleResnetBlock._filters UpSampleResnetBlock._use_additive_upsampling
       UpSampleResnetBlock._additive_upsampling UpSampleResnetBlock._conv3d_block
       UpSampleResnetBlock._conv3d UpSampleResnetBlock._batch_norm
       UpSampleResnetBlock._relu].
  match goal with |- (?m ?w0).2 = _ → _ => change ((m w0).2) with (result m w0) end.
  unfold UpSampleResnetBlock.call.
  do 3 (rewrite result_bind; unfold result at 1;
        cbn [snd fst mret M_ret py_index lookup list_lookup
             UpSampleResnetBlock.sanity_check length Nat.eqb negb
             UpSampleResnetBlock._deconv3d_block]).
  rewrite result_bind.
  destruct (result (Deconv3dBlock.call _ nonskip training) _) as [e|[block h0]] eqn:Hblock;
    [done|].
  apply Deconv3dBlock_call_returns in Hblock as [Hbuilt Hlayer]; [|by intros [=]].
  destruct use_additive_upsampling;
    cbn [UpSampleResnetBlock._use_additive_upsampling
         UpSampleResnetBlock._additive_upsampling];
    repeat (rewrite result_bind;
            match goal with
            | |- match ?r with _ => _ end = _ → _ => destruct r as [?|?] eqn:?; [done|]
            end);
    unfold result; cbn; intros [= <- _]; (split; [done|]);
    intros inputs training';
    unfold UpSampleResnetBlock.__call__, UpSampleResnetBlock.call, call_layer,
      call_training_layer;
    cbn [UpSampleResnetBlock.built UpSampleResnetBlock._deconv3d_block
         UpSampleResnetBlock._use_additive_upsampling
         UpSampleResnetBlock._additive_upsampling UpSampleResnetBlock._conv3d_block
         UpSampleResnetBlock._conv3d UpSampleResnetBlock._batch_norm
         UpSampleResnetBlock._relu UpSampleResnetBlock._filters];
    (match goal with
     | |- emits ?Q (mret ?s ≫= ?f) =>
         enough (emits Q (f s)) as Hcall by (intros w0; apply (Hcall w0))
     end);
    cbn [UpSampleResnetBlock.built UpSampleResnetBlock._deconv3d_block
         UpSampleResnetBlock._use_additive_upsampling
         UpSampleResnetBlock._additive_upsampling UpSampleResnetBlock._conv3d_block
         UpSampleResnetBlock._conv3d UpSampleResnetBlock._batch_norm
         UpSampleResnetBlock._relu UpSampleResnetBlock._filters];
    (apply emits_bind;
       [unfold UpSampleResnetBlock.sanity_check;
        repeat first [apply emits_ret | apply emits_raise | case_match]|]);
    intros tensors;
    repeat first
      [ by apply emits_built_Deconv3dBlock_call
      | apply emits_Conv3dBlock_call
      | by apply emits_AdditiveUpSampling_call
      | apply emits_tensor_add
      | apply emits_ret | apply emits_raise | apply emits_lift_tf | apply emits_py_index
      | apply emits_bind; [|intros ?]
      | case_match ].
Qed.
End UpSampleResnetBlock_more.

Section DownSampleResnetBlock_more.
Context `{TF : TensorFlow} {LU : LayerUtil}.

(** X16. DownSampleResnetBlock.call raises nothing of its own and reads no
    shape: when it fails, the error was raised inside one of its
    primitives. *)
Theorem DownSampleResnetBlock_call_errors (self : DownSampleResnetBlock.t)
    (inputs : Tensor elt) training w e :
  result (DownSampleResnetBlock.call self inputs training) w = inl e →
  ∃ framework_error, e = FrameworkError framework_error.
Proof.
  revert w e.
  change (raises_only (λ e, ∃ t, e = FrameworkError t)
            (DownSampleResnetBlock.call self inputs training)).
  unfold DownSampleResnetBlock.call, call_layer, call_training_layer.
  repeat first
    [ apply ready_raises_Conv3dBlock_call; by eexists
    | apply ready_raises_tensor_add; by eexists
    | apply ready_raises_lift_tf; by eexists
    | apply raises_only_ret
    | apply raises_only_bind; [|intros ?]
    | case_match ].
Qed.
End DownSampleResnetBlock_more.

(** ** Resize3d and AdditiveUpSampling: edge cases and composition *)

Section Resize3d_more.
Context `{TF : TensorFlow}.
Local Open Scope Z_scope.

(** X6. On an input of fewer than five axes Resize3d.call raises
    IndexError before any framework operation. *)
Theorem Resize3d_call_low_rank (self : Resize3d.t) (inputs : Tensor elt) w :
  (length (shape inputs) < 5)%nat →
  Resize3d.call self inputs w = (w, inl IndexError).
Proof.
  intros Hrank. unfold Resize3d.call.
  destruct (shape inputs) as [|b [|d1 [|d2 [|d3 [|c rest]]]]]; try done.
  cbn in Hrank. lia.
Qed.

(** X7. With a target size of fewer than three elements, a 5-D input is
    first reshaped to [(batch * dim1, dim2, dim3, channels)] and the call
    then raises IndexError: nothing is resized. *)
Theorem Resize3d_call_short_size (self : Resize3d.t) (inputs : Tensor elt)
    b d1 d2 d3 c w :
  shape inputs = [b; d1; d2; d3; c] →
  0 ≤ b → 0 ≤ d1 → 0 ≤ d2 → 0 ≤ d3 → 0 ≤ c →
  (length (Resize3d._size self) < 3)%nat →
  Resize3d.call self inputs w
    = (mkWorld (trace w ++ [EvReshape [b * d1; d2; d3; c]]) (next_uid w),
       inl IndexError).
Proof.
  intros Hshape Hb Hd1 Hd2 Hd3 Hc Hsize. unfold Resize3d.call. rewrite Hshape. run.
  rewrite tf_reshape_ok; [|shape_side..]; [|done].
  destruct (Resize3d._size self) as [|s0 [|s1 [|s2 rest]]]; cbn in Hsize |- *;
    try done.
  lia.
Qed.

Lemma py_index_take {A} (l : list A) n i :
  (i < n)%nat → py_index (take n l) i = py_index l i.
Proof. intros Hi. unfold py_index. by rewrite lookup_take_lt. Qed.

(** X8. Resize3d.call reads the first three entries of the target size and
    nothing after them. *)
Theorem Resize3d_call_size_prefix size method (inputs : Tensor elt) w :
  Resize3d.call (Resize3d.__init__ size method) inputs w
    = Resize3d.call (Resize3d.__init__ (take 3 size) method) inputs w.
Proof.
  unfold Resize3d.call, Resize3d.__init__. cbn [Resize3d._size Resize3d._method].
  by rewrite !py_index_take by lia.
Qed.
End Resize3d_more.

Section AdditiveUpSampling_more.
Context `{TF : TensorFlow}.
Local Open Scope Z_scope.

(** A successful call of AdditiveUpSampling, operation by operation. *)
Lemma AdditiveUpSampling_call_ok output_shape stride (inputs : Tensor elt)
    b d1 d2 d3 c o1 o2 o3 w :
  shape inputs = [b; d1; d2; d3; c] →
  output_shape = [o1; o2; o3] →
  0 ≤ b → 0 < d1 → 0 < d2 → 0 < d3 → 0 < c →
  0 < o1 → 0 < o2 → 0 < o3 →
  0 < stride → c `mod` stride = 0 →
  AdditiveUpSampling.call (AdditiveUpSampling.__init__ output_shape stride) inputs w
    = (mkWorld (trace w ++ two_stage_trace b d1 d2 d3 c o1 o2 o3 BILINEAR
                  ++ [EvSplit stride 4; EvStack 5; EvReduceSum 5]) (next_uid w),
       inr (sum_of_channel_groups stride
              (mkTensor [b; o1; o2; o3; c]
                 (two_stage_data b d1 d2 d3 c o1 o2 o3 BILINEAR (data inputs))))).
Proof.
  intros Hshape -> Hb Hd1 Hd2 Hd3 Hc Ho1 Ho2 Ho3 Hstride Hmod.
  pose proof (Resize3d_call_ok (Resize3d.__init__ [o1; o2; o3] BILINEAR) inputs
                b d1 d2 d3 c o1 o2 o3) as Hresize.
  unfold AdditiveUpSampling.call, AdditiveUpSampling.__init__.
  rewrite Hshape. run.
  rewrite decide_False by lia. cbn. rewrite decide_False by (by intros []).
  cbn in Hresize. rewrite Hresize by done. cbn.
  erewrite tf_split_ok by done. cbn.
  assert (0 < c `div` stride) as HG.
  { apply Z.div_str_pos. split; [done|].
    apply Z.divide_pos_le; [done|]. by apply Z.mod_divide; [lia|]. }
  assert (∃ n, Z.to_nat stride = S n) as [n Hn] by (exists (Z.to_nat (stride - 1)); lia).
  erewrite (tf_stack_ok _ [b; o1; o2; o3; c `div` stride]); cycle 1.
  { rewrite Hn. done. }
  { apply Forall_fmap, Forall_true. done. }
  { cbn. lia. }
  cbn.
  erewrite tf_reduce_sum_ok by done. cbn.
  rewrite !length_fmap, length_seq, Nat2Z.id.
  f_equal.
  { f_equal. by rewrite <- !app_assoc. }
  do 2 f_equal.
  rewrite <- list_fmap_compose. unfold compose. cbn.
  replace (Z.to_nat (b * (o1 * (o2 * (o3 * (c `div` stride * 1))))))
    with (Z.to_nat (b * o1 * o2 * o3) * Z.to_nat (c `div` stride))%nat by nia.
  replace (Z.to_nat (b * (o1 * (o2 * (o3 * 1))))) with (Z.to_nat (b * o1 * o2 * o3))
    by (f_equal; lia).
  change (Z.to_nat 1) with 1%nat.
  erewrite (list_fmap_ext (λ k, split_data _ _ _ 1 k _));
    [|intros _ k _; apply split_data_channel_group; lia].
  match goal with |- context [elementwise_sum _ ?l] => set (parts := l) end.
  replace (Z.to_nat stride) with (length parts)
    by (subst parts; by rewrite length_fmap, length_seq).
  apply stack_reduce_sum.
Qed.

Lemma fmap_nth_seq {A} (l : list A) d :
  (λ j, nth j l d) <$> seq 0 (length l) = l.
Proof.
  apply list_eq. intros j. rewrite list_lookup_fmap.
  destruct (decide (j < length l)%nat) as [Hj|Hj].
  - rewrite lookup_seq_lt by done. cbn.
    destruct (lookup_lt_is_Some_2 l j Hj) as [x Hx].
    by rewrite Hx, (nth_lookup_Some _ _ _ _ Hx).
  - rewrite lookup_seq_ge, lookup_ge_None_2 by lia. done.
Qed.

Lemma channel_group_all P C (values : list elt) :
  (0 < C)%nat → length values = (P * C)%nat →
  channel_group P C C 0 values = values.
Proof.
  intros HC Hlen. unfold channel_group.
  rewrite flat_map_fmap_seq by done. rewrite <- Hlen.
  rewrite <- (fmap_nth_seq values ezero) at 2.
  apply list_fmap_ext. intros _ j _. f_equal.
  pose proof (Nat.div_mod_eq j C). lia.
Qed.

Lemma elementwise_sum_one (values : list elt) :
  elementwise_sum (length values) [values] = values.
Proof. unfold elementwise_sum. cbn. apply fmap_nth_seq. Qed.

(** X9. With stride 1 AdditiveUpSampling returns what Resize3d returns:
    the one channel group is the whole tensor. *)
Theorem AdditiveUpSampling_stride_one output_shape (inputs : Tensor elt)
    b d1 d2 d3 c o1 o2 o3 w :
  shape inputs = [b; d1; d2; d3; c] →
  output_shape = [o1; o2; o3] →
  0 ≤ b → 0 < d1 → 0 < d2 → 0 < d3 → 0 < c →
  0 < o1 → 0 < o2 → 0 < o3 →
  result (AdditiveUpSampling.call (AdditiveUpSampling.__init__ output_shape 1) inputs) w
    = result (Resize3d.call (Resize3d.__init__ output_shape BILINEAR) inputs) w.
Proof.
  intros Hshape -> Hb Hd1 Hd2 Hd3 Hc Ho1 Ho2 Ho3. unfold result.
  rewrite (AdditiveUpSampling_call_ok [o1; o2; o3] 1 inputs b d1 d2 d3 c o1 o2 o3 w
             Hshape eq_refl) by first [done | apply Z.mod_1_r].
  rewrite (Resize3d_call_ok (Resize3d.__init__ [o1; o2; o3] BILINEAR) inputs
             b d1 d2 d3 c o1 o2 o3 w Hshape eq_refl) by done.
  cbn [snd]. f_equal.
  unfold sum_of_channel_groups. cbn [shape data].
  rewrite Z.div_1_r. f_equal.
  set (values := two_stage_data _ _ _ _ _ _ _ _ _ _).
  assert (length values = (Z.to_nat (b * o1 * o2 * o3) * Z.to_nat c)%nat) as Hlen.
  { subst values. unfold two_stage_data, resized. rewrite length_fmap, length_seq.
    rewrite <- Z2Nat.inj_mul by nia. f_equal. ring. }
  change (Z.to_nat 1) with 1%nat. cbn [seq fmap list_fmap].
  rewrite channel_group_all by (done || lia).
  rewrite <- Hlen. apply elementwise_sum_one.
Qed.

(** X10. AdditiveUpSampling.call fails in its first line, before any
    framework operation, on an input without an axis 4 (IndexError) and,
    whatever the channel count, on a stride of 0 (ZeroDivisionError). *)
Theorem AdditiveUpSampling_call_first_line_errors (self : AdditiveUpSampling.t)
    (inputs : Tensor elt) w :
  ((length (shape inputs) < 5)%nat →
   AdditiveUpSampling.call self inputs w = (w, inl IndexError))
  ∧ ((5 ≤ length (shape inputs))%nat → AdditiveUpSampling._stride self = 0 →
     AdditiveUpSampling.call self inputs w = (w, inl ZeroDivisionError)).
Proof.
  unfold AdditiveUpSampling.call. split.
  - intros Hrank.
    destruct (shape inputs) as [|b [|d1 [|d2 [|d3 [|c rest]]]]]; try done.
    cbn in Hrank. lia.
  - intros Hrank Hstride.
    destruct (shape inputs) as [|b [|d1 [|d2 [|d3 [|c rest]]]]];
      try (cbn in Hrank; lia).
    run. by rewrite decide_True.
Qed.

(** X11. A successful call performs eight framework operations in this
    order: the five of the two-pass resize, always bilinear and on all the
    channels of the input, then one split into [stride] parts along axis 4,
    one stack and one sum along a new axis 5. *)
Theorem AdditiveUpSampling_call_operations output_shape stride (inputs : Tensor elt)
    b d1 d2 d3 c o1 o2 o3 w :
  shape inputs = [b; d1; d2; d3; c] →
  output_shape = [o1; o2; o3] →
  0 ≤ b → 0 < d1 → 0 < d2 → 0 < d3 → 0 < c →
  0 < o1 → 0 < o2 → 0 < o3 →
  0 < stride → c `mod` stride = 0 →
  trace_after
    (AdditiveUpSampling.call (AdditiveUpSampling.__init__ output_shape stride) inputs) w
  = trace w ++ two_stage_trace b d1 d2 d3 c o1 o2 o3 BILINEAR
      ++ [EvSplit stride 4; EvStack 5; EvReduceSum 5].
Proof.
  intros Hshape Hout Hb Hd1 Hd2 Hd3 Hc Ho1 Ho2 Ho3 Hstride Hmod. unfold trace_after.
  by rewrite (AdditiveUpSampling_call_ok output_shape stride inputs b d1 d2 d3 c
                o1 o2 o3 w Hshape Hout) by done.
Qed.
End AdditiveUpSampling_more.

(** ** The statements at concrete inputs, on the integer backend *)

Import ZBackend.

Lemma Deconv3D_build_output_padding_witness :
  trace_after
    (Deconv3D.build
       (Deconv3D.__init__ (TF := ZBackend.tf) 8 (Some [16; 16; 16]%Z) (PyInt 3)
          (PyList [2; 2; 2]%Z) "valid" [])
       [1; 8; 8; 8; 4]%Z) world0
  = [EvConv3DTranspose
       (mkConv3DTransposeArgs 8 [3; 3; 3]%Z [2; 2; 2]%Z "same" (Some [1; 1; 1]%Z) [])].
Proof.
  refine (proj1 (proj1 (Deconv3D_build_output_padding (TF := ZBackend.tf) 8
                   (Some [16; 16; 16]%Z) (PyInt 3) (PyList [2; 2; 2]%Z) "valid" []
                   [1; 8; 8; 8; 4]%Z world0)
                 [16; 16; 16]%Z _ _ _ _ _)); reflexivity.
Defined.

Lemma Resize3d_call_shape_witness :
  ∃ output,
    result (Resize3d.call (TF := ZBackend.tf) (Resize3d.mk [3; 4; 5]%Z BILINEAR)
              (ZBackend.arange [2; 2; 3; 2; 2]%Z)) world0 = inr output
    ∧ shape output = [2; 3; 4; 5; 2]%Z
    ∧ Z.of_nat (length (data output)) = 240%Z
    ∧ Z.of_nat (length (data output)) = numel (shape output)
    ∧ data output
      = two_stage_data (TF := ZBackend.tf) 2 2 3 2 2 3 4 5 BILINEAR
          (data (ZBackend.arange [2; 2; 3; 2; 2]%Z)).
Proof.
  apply (Resize3d_call_shape (TF := ZBackend.tf) (Resize3d.mk [3; 4; 5]%Z BILINEAR)
           (ZBackend.arange [2; 2; 3; 2; 2]%Z) 2 2 3 2 2 3 4 5 world0);
    reflexivity || lia.
Defined.

(** Doubling axis 1 of a two-element tensor repeats each element. *)
Example Resize3d_call_doubles_axis1 :
  result (Resize3d.call (TF := ZBackend.tf) (Resize3d.mk [4; 1; 1]%Z NEAREST_NEIGHBOR)
            (ZBackend.arange [1; 2; 1; 1; 1]%Z)) world0
  = inr (mkTensor [1; 4; 1; 1; 1]%Z [0; 0; 1; 1]%Z).
Proof. reflexivity. Qed.

Lemma Resize3d_call_two_stage_witness :
  trace_after (Resize3d.call (TF := ZBackend.tf) (Resize3d.mk [3; 4; 5]%Z NEAREST_NEIGHBOR)
                 (ZBackend.arange [2; 2; 3; 2; 2]%Z)) world0
  = [EvReshape [4; 3; 2; 2]%Z; EvResize [4; 5]%Z NEAREST_NEIGHBOR;
     EvReshape [2; 2; 4; 10]%Z; EvResize [3; 4]%Z NEAREST_NEIGHBOR;
     EvReshape [2; 3; 4; 5; 2]%Z].
Proof.
  refine (proj2 (Resize3d_call_two_stage (TF := ZBackend.tf)
                   (Resize3d.mk [3; 4; 5]%Z NEAREST_NEIGHBOR)
                   (ZBackend.arange [2; 2; 3; 2; 2]%Z) 2 2 3 2 2 3 4 5 world0 _ _)
            (mkTensor [2; 3; 4; 5; 2]%Z
               (two_stage_data (TF := ZBackend.tf) 2 2 3 2 2 3 4 5 NEAREST_NEIGHBOR
                  (data (ZBackend.arange [2; 2; 3; 2; 2]%Z)))) _);
    reflexivity.
Defined.

Lemma DDFSummand_call_resizes_unless_shapes_match_witness :
  let self := DDFSummand.mk (TF := ZBackend.tf) [1; 4; 4; 4; 2]%Z
                (ZBackend.conv3d 0 3 None (Some (PyInt 1)) None)
                (Resize3d.mk [1; 4; 4; 4; 2]%Z BILINEAR) in
  DDFSummand.call self (ZBackend.arange [1; 4; 4; 4; 2]%Z) world0
    = (world0, inr (ZBackend.zeros [1; 4; 4; 4; 3]%Z))
  ∧ DDFSummand.call self (ZBackend.arange [1; 2; 2; 2; 2]%Z) world0
    = Resize3d.call (TF := ZBackend.tf) (Resize3d.mk [1; 4; 4; 4; 2]%Z BILINEAR)
        (ZBackend.zeros [1; 2; 2; 2; 3]%Z) world0.
Proof.
  intros self. split.
  - exact (proj2 (DDFSummand_call_resizes_unless_shapes_match (TF := ZBackend.tf) self
                    (ZBackend.arange [1; 4; 4; 4; 2]%Z) world0) eq_refl).
  - refine (proj1 (DDFSummand_call_resizes_unless_shapes_match (TF := ZBackend.tf) self
                     (ZBackend.arange [1; 2; 2; 2; 2]%Z) world0) _).
    discriminate.
Defined.

Lemma DDFSummand_call_always_resizes_witness :
  let self := DDFSummand.mk (TF := ZBackend.tf) [4; 4; 4]%Z
                (ZBackend.conv3d 0 3 None (Some (PyInt 1)) None)
                (Resize3d.mk [4; 4; 4]%Z BILINEAR) in
  let inputs := ZBackend.arange [1; 4; 4; 4; 2]%Z in
  TensorShape_ne (shape inputs) (DDFSummand._output_shape self) = true
  ∧ trace_after (DDFSummand.call self inputs) world0
    = two_stage_trace 1 4 4 4 3 4 4 4 BILINEAR.
Proof.
  intros self inputs.
  assert (constructed (DDFSummand.__init__ (LU := ZBackend.lu) [4; 4; 4]%Z 3) self)
    as Hself by (by exists world0).
  destruct (DDFSummand_call_always_resizes (LU := ZBackend.lu) [4; 4; 4]%Z 3 self inputs
              world0 Hself eq_refl eq_refl) as [Hguard Hcall].
  split; [exact Hguard|].
  destruct (Hcall (ZBackend.zeros [1; 4; 4; 4; 3]%Z) eq_refl) as [Hresize _].
  unfold trace_after. rewrite Hresize. reflexivity.
Defined.

Lemma AdditiveUpSampling_call_divisibility_check_witness :
  AdditiveUpSampling.call (TF := ZBackend.tf) (AdditiveUpSampling.__init__ [2; 2; 2]%Z 2)
    (ZBackend.arange [1; 1; 1; 1; 3]%Z) world0
  = (world0, inl (ValueError AdditiveUpSampling.not_divisible)).
Proof.
  refine (proj2 (AdditiveUpSampling_call_divisibility_check (TF := ZBackend.tf)
                   (AdditiveUpSampling.__init__ [2; 2; 2]%Z 2)
                   (ZBackend.arange [1; 1; 1; 1; 3]%Z) 1 1 1 1 3 world0 eq_refl _) _);
    discriminate.
Defined.

Lemma AdditiveUpSampling_call_sums_channel_groups_witness :
  ∃ upsampled,
    result (Resize3d.call (TF := ZBackend.tf) (Resize3d.__init__ [1; 2; 2]%Z BILINEAR)
              (ZBackend.arange [1; 1; 1; 2; 4]%Z)) world0 = inr upsampled
    ∧ result (AdditiveUpSampling.call (TF := ZBackend.tf)
                (AdditiveUpSampling.__init__ [1; 2; 2]%Z 2)
                (ZBackend.arange [1; 1; 1; 2; 4]%Z)) world0
      = inr (sum_of_channel_groups (TF := ZBackend.tf) 2 upsampled)
    ∧ shape (sum_of_channel_groups (TF := ZBackend.tf) 2 upsampled) = [1; 1; 2; 2; 2]%Z.
Proof.
  apply (AdditiveUpSampling_call_sums_channel_groups (TF := ZBackend.tf) [1; 2; 2]%Z 2
           (ZBackend.arange [1; 1; 1; 2; 4]%Z) 1 1 1 2 4 1 2 2 world0);
    reflexivity || lia.
Defined.

Example AdditiveUpSampling_call_example :
  result (AdditiveUpSampling.call (TF := ZBackend.tf) (AdditiveUpSampling.__init__ [1; 2; 2]%Z 2)
            (ZBackend.arange [1; 1; 1; 2; 4]%Z)) world0
  = inr (mkTensor [1; 1; 2; 2; 2]%Z [2; 4; 10; 12; 2; 4; 10; 12]%Z).
Proof. vm_compute. reflexivity. Qed.

Lemma DownSampleResnetBlock_call_returns_pair_witness :
  let self :=
    DownSampleResnetBlock.mk (TF := ZBackend.tf) true
      (Conv3dBlock_at (LU := ZBackend.lu) 0 8 (PyInt 3) (PyInt 1) "same")
      (Conv3dBlock_at (LU := ZBackend.lu) 3 8 (PyInt 3) (PyInt 1) "same")
      (ZBackend.conv3d 6 8 (Some (PyInt 3)) (Some (PyInt 1)) None)
      (lu_batch_norm (LayerUtil := ZBackend.lu) 7)
      (lu_act (LayerUtil := ZBackend.lu) 8 "relu")
      (ZBackend.max_pool3d 9 [2; 2; 2]%Z [2; 2; 2]%Z)
      (Conv3dBlock_at (LU := ZBackend.lu) 10 8 (PyInt 3) (PyInt 2) "same") in
  constructed (DownSampleResnetBlock.__init__ (LU := ZBackend.lu) 8 (PyInt 3) true) self
  ∧ result (DownSampleResnetBlock.call self (ZBackend.arange [1; 2; 2; 2; 4]%Z) None) world0
    = inr (ZBackend.zeros [1; 1; 1; 1; 8]%Z, ZBackend.zeros [1; 2; 2; 2; 8]%Z).
Proof.
  intros self.
  assert (constructed (DownSampleResnetBlock.__init__ (LU := ZBackend.lu) 8 (PyInt 3) true)
            self) as Hself by (by exists world0).
  split; [exact Hself|].
  refine (proj1 (proj2 (DownSampleResnetBlock_call_returns_pair (LU := ZBackend.lu)
                          8 (PyInt 3) true self (ZBackend.arange [1; 2; 2; 2; 4]%Z) None
                          world0 Hself))
            (ZBackend.zeros [1; 2; 2; 2; 8]%Z) (ZBackend.zeros [1; 2; 2; 2; 8]%Z)
            (ZBackend.zeros [1; 2; 2; 2; 8]%Z) (ZBackend.zeros [1; 2; 2; 2; 8]%Z)
            (ZBackend.zeros [1; 2; 2; 2; 8]%Z) (ZBackend.zeros [1; 2; 2; 2; 8]%Z)
            (ZBackend.zeros [1; 1; 1; 1; 8]%Z) _ _ _ _ _ _ _);
    reflexivity.
Defined.

Lemma UpSampleResnetBlock_rejects_non_pairs_witness :
  let self :=
    UpSampleResnetBlock.mk (TF := ZBackend.tf) 8 true None None
      (Conv3dBlock_at (LU := ZBackend.lu) 0 8 (PyInt 3) (PyInt 1) "same")
      (ZBackend.conv3d 3 8 None (Some (PyInt 1)) None)
      (lu_batch_norm (LayerUtil := ZBackend.lu) 4)
      (lu_act (LayerUtil := ZBackend.lu) 5 "relu") false in
  let x := ZBackend.arange [1; 2; 2; 2; 4]%Z in
  result (UpSampleResnetBlock.build self (Single [1; 2; 2; 2; 4]%Z)) world0
    = inl (ValueError UpSampleResnetBlock.not_a_pair)
  ∧ (∃ self', result (UpSampleResnetBlock.build self
                       (ListOf [[1; 2; 2; 2; 4]; [1; 4; 4; 4; 8]]%Z)) world0 = inr self')
  ∧ result (UpSampleResnetBlock.call self (ListOf [x; x; x]) None) world0
    = inl (ValueError UpSampleResnetBlock.not_a_pair).
Proof.
  intros self x. split; [|split].
  - refine (proj2 (proj1 (UpSampleResnetBlock_rejects_non_pairs (LU := ZBackend.lu) self
                            (Single [1; 2; 2; 2; 4]%Z) (Single x) None world0)) _).
    intros (a & b & Hab). discriminate Hab.
  - refine (proj1 (proj2 (UpSampleResnetBlock_rejects_non_pairs (LU := ZBackend.lu) self
                            (ListOf [[1; 2; 2; 2; 4]; [1; 4; 4; 4; 8]]%Z) (Single x) None
                            world0)) _).
    eexists _, _. reflexivity.
  - refine (proj2 (proj2 (proj2 (UpSampleResnetBlock_rejects_non_pairs (LU := ZBackend.lu)
                                   self (Single [1; 2; 2; 2; 4]%Z) (ListOf [x; x; x]) None
                                   world0))) _).
    intros (a & b & Hab). discriminate Hab.
Defined.



(** With an even channel count the same call returns the block's output. *)
Example UpSampleResnetBlock_even_channels_accepted :
  let self :=
    UpSampleResnetBlock.mk (TF := ZBackend.tf) 8 true None None
      (Conv3dBlock_at (LU := ZBackend.lu) 0 8 (PyInt 3) (PyInt 1) "same")
      (ZBackend.conv3d 3 8 None (Some (PyInt 1)) None)
      (lu_batch_norm (LayerUtil := ZBackend.lu) 4)
      (lu_act (LayerUtil := ZBackend.lu) 5 "relu") false in
  match result (UpSampleResnetBlock.__call__ self
                  (ListOf [ZBackend.arange [1; 2; 2; 2; 16]%Z;
                           ZBackend.arange [1; 4; 4; 4; 8]%Z]) None) world0 with
  | inr (_, h1) => shape h1 = [1; 4; 4; 4; 8]%Z
  | inl _ => False
  end.
Proof. vm_compute. reflexivity. Qed.

(** Outside the domain of the statements the methods raise Python's own
    errors: a 4-D input has no axis 4, and a stride of 0 fails in [%]. *)
Example Resize3d_call_rank4 :
  result (Resize3d.call (TF := ZBackend.tf) (Resize3d.mk [3; 4; 5]%Z BILINEAR)
            (ZBackend.arange [2; 2; 2; 2]%Z)) world0 = inl IndexError.
Proof. reflexivity. Qed.

Example AdditiveUpSampling_call_stride_zero :
  AdditiveUpSampling.call (TF := ZBackend.tf) (AdditiveUpSampling.__init__ [2; 2; 2]%Z 0)
    (ZBackend.arange [1; 1; 1; 1; 4]%Z) world0 = (world0, inl ZeroDivisionError).
Proof. reflexivity. Qed.

(** ** The further properties at concrete inputs *)

Lemma Deconv3D_build_index_error_witness :
  Deconv3D.build
    (Deconv3D.__init__ (TF := ZBackend.tf) 8 (Some [16; 16]%Z) (PyInt 3) (PyInt 2) "same" [])
    [1; 8; 8; 8; 4]%Z world0
  = (world0, inl IndexError).
Proof.
  pose proof (Deconv3D_build_index_error (TF := ZBackend.tf)
                (Deconv3D.__init__ 8 (Some [16; 16]%Z) (PyInt 3) (PyInt 2) "same" [])
                [1; 8; 8; 8; 4]%Z [16; 16]%Z world0 eq_refl) as [Hiff Hworld].
  apply Hworld, Hiff. left. cbn. lia.
Defined.

Lemma Deconv3D_build_output_length_witness :
  ∃ self',
    result (Deconv3D.build
              (Deconv3D.__init__ (TF := ZBackend.tf) 8 (Some [16; 15; 16]%Z) (PyInt 3)
                 (PyInt 2) "valid" [])
              [1; 8; 8; 8; 4]%Z) world0 = inr self'
    ∧ ∃ output_padding,
        Deconv3D._output_padding self' = Some output_padding
        ∧ Deconv3D._padding self' = "same"
        ∧ ∀ i, i < 3 →
            deconv_output_length (nth (1 + i) [1; 8; 8; 8; 4]%Z 0%Z)
              (nth i (Deconv3D.triple (Deconv3D._strides self')) 0%Z)
              (nth i (Deconv3D.triple (Deconv3D._kernel_size self')) 0%Z)
              (nth i output_padding 0%Z)
            = nth i [16; 15; 16]%Z 0%Z.
Proof.
  eexists. split; [reflexivity|].
  eapply (Deconv3D_build_output_length (TF := ZBackend.tf)
            (Deconv3D.__init__ 8 (Some [16; 15; 16]%Z) (PyInt 3) (PyInt 2) "valid" [])
            _ [1; 8; 8; 8; 4]%Z [16; 15; 16]%Z world0);
    reflexivity.
Defined.

Lemma Deconv3D_build_kernel_parity_witness :
  ∃ self',
    result (Deconv3D.build
              (Deconv3D.__init__ (TF := ZBackend.tf) 8 (Some [16; 15; 16]%Z) (PyInt 5)
                 (PyInt 2) "same" [])
              [1; 8; 8; 8; 4]%Z) world0 = inr self'
    ∧ ∃ output_padding,
        Deconv3D._output_padding self' = Some output_padding
        ∧ length output_padding = 3
        ∧ ∀ i, i < 3 →
            nth i output_padding 0%Z
            = (nth i [16; 15; 16] 0 - ((nth (1 + i) [1; 8; 8; 8; 4] 0 - 1) * 2 + 5 `mod` 2))%Z.
Proof.
  eexists. split; [reflexivity|].
  destruct (Deconv3D_build_kernel_parity (TF := ZBackend.tf)
              (Deconv3D.__init__ 8 (Some [16; 15; 16]%Z) (PyInt 5) (PyInt 2) "same" [])
              _ [1; 8; 8; 8; 4]%Z [16; 15; 16]%Z world0 eq_refl eq_refl)
    as (output_padding & Hstored & Hlength & Hparity).
  exists output_padding. split; [exact Hstored|]. split; [exact Hlength|].
  intros i Hi. rewrite (Hparity i Hi).
  by destruct i as [|[|[|]]]; [| | |lia].
Defined.

Lemma Deconv3D_rebuild_same_arguments_witness :
  ∃ self' args,
    result (Deconv3D.build
              (Deconv3D.__init__ (TF := ZBackend.tf) 8 (Some [16; 15; 16]%Z) (PyInt 3)
                 (PyInt 2) "valid" [])
              [1; 8; 8; 8; 4]%Z) world0 = inr self'
    ∧ trace_after (Deconv3D.build self' [1; 8; 8; 8; 4]%Z) world0
      = [EvConv3DTranspose args]
    ∧ ct_output_padding args = Some [1; 0; 1]%Z.
Proof.
  eexists. 
  destruct (Deconv3D_rebuild_same_arguments (TF := ZBackend.tf)
              (Deconv3D.__init__ 8 (Some [16; 15; 16]%Z) (PyInt 3) (PyInt 2) "valid" [])
              _ [1; 8; 8; 8; 4]%Z world0 world0 eq_refl)
    as (args & Hfirst & Hsecond).
  exists args. split; [reflexivity|]. split; [exact Hsecond|].
  cbn in Hfirst. by injection Hfirst as <-.
Defined.

Lemma Deconv3D_call_builds_once_witness :
  result (Deconv3D.__call__
            (Deconv3D.__init__ (TF := ZBackend.tf) 8 (Some [16; 15; 16]%Z) (PyInt 3)
               (PyInt 2) "valid" [])
            (ZBackend.arange [1; 8; 8; 8; 4]%Z)) world0
  ≠ inl TypeError.
Proof.
  refine (proj1 (Deconv3D_call_builds_once (TF := ZBackend.tf)
                   (Deconv3D.__init__ 8 (Some [16; 15; 16]%Z) (PyInt 3) (PyInt 2)
                      "valid" [])
                   (ZBackend.arange [1; 8; 8; 8; 4]%Z) world0 _)).
  intros Hbuilt. discriminate Hbuilt.
Defined.

Lemma Resize3d_call_low_rank_witness :
  Resize3d.call (TF := ZBackend.tf) (Resize3d.mk [3; 4; 5]%Z BILINEAR)
    (ZBackend.arange [2; 2; 2; 2]%Z) world0
  = (world0, inl IndexError).
Proof.
  apply (Resize3d_call_low_rank (TF := ZBackend.tf)). cbn. lia.
Defined.

Lemma Resize3d_call_short_size_witness :
  Resize3d.call (TF := ZBackend.tf) (Resize3d.mk [3; 4]%Z BILINEAR)
    (ZBackend.arange [2; 2; 3; 2; 2]%Z) world0
  = (mkWorld [EvReshape [4; 3; 2; 2]%Z] 0, inl IndexError).
Proof.
  apply (Resize3d_call_short_size (TF := ZBackend.tf) (Resize3d.mk [3; 4]%Z BILINEAR)
           (ZBackend.arange [2; 2; 3; 2; 2]%Z) 2 2 3 2 2 world0 eq_refl);
    cbn; lia.
Defined.

Lemma AdditiveUpSampling_stride_one_witness :
  result (AdditiveUpSampling.call (TF := ZBackend.tf)
            (AdditiveUpSampling.__init__ [1; 2; 2]%Z 1)
            (ZBackend.arange [1; 1; 1; 2; 3]%Z)) world0
  = result (Resize3d.call (TF := ZBackend.tf) (Resize3d.__init__ [1; 2; 2]%Z BILINEAR)
              (ZBackend.arange [1; 1; 1; 2; 3]%Z)) world0.
Proof.
  apply (AdditiveUpSampling_stride_one (TF := ZBackend.tf) [1; 2; 2]%Z
           (ZBackend.arange [1; 1; 1; 2; 3]%Z) 1 1 1 2 3 1 2 2 world0);
    reflexivity || lia.
Defined.

Lemma AdditiveUpSampling_call_first_line_errors_witness :
  AdditiveUpSampling.call (TF := ZBackend.tf) (AdditiveUpSampling.__init__ [2; 2; 2]%Z 2)
    (ZBackend.arange [2; 2; 2; 2]%Z) world0 = (world0, inl IndexError)
  ∧ AdditiveUpSampling.call (TF := ZBackend.tf) (AdditiveUpSampling.__init__ [2; 2; 2]%Z 0)
      (ZBackend.arange [1; 1; 1; 1; 3]%Z) world0 = (world0, inl ZeroDivisionError).
Proof.
  split.
  - apply (proj1 (AdditiveUpSampling_call_first_line_errors (TF := ZBackend.tf)
                    (AdditiveUpSampling.__init__ [2; 2; 2]%Z 2)
                    (ZBackend.arange [2; 2; 2; 2]%Z) world0)).
    cbn. lia.
  - apply (proj2 (AdditiveUpSampling_call_first_line_errors (TF := ZBackend.tf)
                    (AdditiveUpSampling.__init__ [2; 2; 2]%Z 0)
                    (ZBackend.arange [1; 1; 1; 1; 3]%Z) world0)).
    + cbn. lia.
    + reflexivity.
Defined.

Lemma AdditiveUpSampling_call_operations_witness :
  trace_after (AdditiveUpSampling.call (TF := ZBackend.tf)
                 (AdditiveUpSampling.__init__ [1; 2; 2]%Z 2)
                 (ZBackend.arange [1; 1; 1; 2; 4]%Z)) world0
  = [EvReshape [1; 1; 2; 4]%Z; EvResize [2; 2]%Z BILINEAR;
     EvReshape [1; 1; 2; 8]%Z; EvResize [1; 2]%Z BILINEAR;
     EvReshape [1; 1; 2; 2; 4]%Z;
     EvSplit 2 4; EvStack 5; EvReduceSum 5].
Proof.
  apply (AdditiveUpSampling_call_operations (TF := ZBackend.tf) [1; 2; 2]%Z 2
           (ZBackend.arange [1; 1; 1; 2; 4]%Z) 1 1 1 2 4 1 2 2 world0);
    reflexivity || lia.
Defined.

Lemma UpSampleResnetBlock_call_constructs_deconv_witness :
  let self :=
    UpSampleResnetBlock.mk (TF := ZBackend.tf) 8 true None None
      (Conv3dBlock_at (LU := ZBackend.lu) 0 8 (PyInt 3) (PyInt 1) "same")
      (ZBackend.conv3d 3 8 None (Some (PyInt 1)) None)
      (lu_batch_norm (LayerUtil := ZBackend.lu) 4)
      (lu_act (LayerUtil := ZBackend.lu) 5 "relu") false in
  ∃ rest,
    trace_after (UpSampleResnetBlock.__call__ self
                   (ListOf [ZBackend.arange [1; 2; 2; 2; 4]%Z;
                            ZBackend.arange [1; 4; 3; 4; 8]%Z]) None) world0
    = [] ++ EvConv3DTranspose
              (mkConv3DTransposeArgs 8 [3; 3; 3]%Z [2; 2; 2]%Z "same"
                 (Some [4 - 2 * 2 + 1; 3 - 2 * 2 + 1; 4 - 2 * 2 + 1]%Z) [])
            :: rest.
Proof.
  intros self.
  apply (UpSampleResnetBlock_call_constructs_deconv (LU := ZBackend.lu) 8 true self
           (ZBackend.arange [1; 2; 2; 2; 4]%Z) (ZBackend.arange [1; 4; 3; 4; 8]%Z) None
           1 2 2 2 4 1 4 3 4 8 world0).
  - by exists world0.
  - reflexivity.
  - reflexivity.
Defined.

(** A block that has been built for a [(1, 2, 2, 2, 8)] skip tensor, called
    without additive upsampling on a non-skip tensor of three channels: the
    call returns, and the construction of the transposed convolution is the
    one framework operation it performs. *)
Lemma UpSampleResnetBlock_without_additive_witness :
  let self :=
    UpSampleResnetBlock.mk (TF := ZBackend.tf) 8 false
      (Some (fresh_deconv_block (LU := ZBackend.lu) 8 [1; 2; 2; 2; 8]%Z 6)) None
      (Conv3dBlock_at (LU := ZBackend.lu) 0 8 (PyInt 3) (PyInt 1) "same")
      (ZBackend.conv3d 3 8 None (Some (PyInt 1)) None)
      (lu_batch_norm (LayerUtil := ZBackend.lu) 4)
      (lu_act (LayerUtil := ZBackend.lu) 5 "relu") true in
  let inputs := ListOf [ZBackend.arange [1; 1; 1; 1; 3]%Z;
                        ZBackend.arange [1; 2; 2; 2; 8]%Z] in
  (raises_only (λ e, ∀ msg, e ≠ ValueError msg)
     (UpSampleResnetBlock.call self inputs None)
   ∧ emits is_construction (UpSampleResnetBlock.call self inputs None))
  ∧ match result (UpSampleResnetBlock.call self inputs None) (mkWorld [] 8) with
    | inr (_, h1) => h1 = ZBackend.arange [1; 2; 2; 2; 8]%Z
    | inl _ => False
    end
  ∧ trace_after (UpSampleResnetBlock.call self inputs None) (mkWorld [] 8)
    = [EvConv3DTranspose
         (mkConv3DTransposeArgs 8 [3; 3; 3]%Z [2; 2; 2]%Z "same" (Some [1; 1; 1]%Z) [])].
Proof.
  intros self inputs.
  split; [|split].
  - exact (UpSampleResnetBlock_without_additive (TF := ZBackend.tf) self
             (ZBackend.arange [1; 1; 1; 1; 3]%Z) (ZBackend.arange [1; 2; 2; 2; 8]%Z) None
             eq_refl).
  - reflexivity.
  - reflexivity.
Defined.

Lemma UpSampleResnetBlock_short_skip_witness :
  let self :=
    UpSampleResnetBlock.mk (TF := ZBackend.tf) 8 true None None
      (Conv3dBlock_at (LU := ZBackend.lu) 0 8 (PyInt 3) (PyInt 1) "same")
      (ZBackend.conv3d 3 8 None (Some (PyInt 1)) None)
      (lu_batch_norm (LayerUtil := ZBackend.lu) 4)
      (lu_act (LayerUtil := ZBackend.lu) 5 "relu") false in
  UpSampleResnetBlock.__call__ self
    (ListOf [ZBackend.arange [1; 2; 2; 2; 4]%Z; ZBackend.arange [1; 4; 4]%Z]) None world0
  = (mkWorld [] 2, inl IndexError).
Proof.
  intros self.
  refine (proj2 (UpSampleResnetBlock_short_skip (LU := ZBackend.lu) 8 true self
                   (ZBackend.arange [1; 2; 2; 2; 4]%Z) (ZBackend.arange [1; 4; 4]%Z) None
                   world0 _ _)).
  - by exists world0.
  - cbn. lia.
Defined.

Lemma UpSampleResnetBlock_sublayers_in_place_witness :
  let self :=
    UpSampleResnetBlock.mk (TF := ZBackend.tf) 8 true None None
      (Conv3dBlock_at (LU := ZBackend.lu) 0 8 (PyInt 3) (PyInt 1) "same")
      (ZBackend.conv3d 3 8 None (Some (PyInt 1)) None)
      (lu_batch_norm (LayerUtil := ZBackend.lu) 4)
      (lu_act (LayerUtil := ZBackend.lu) 5 "relu") false in
  result (UpSampleResnetBlock.__call__ self
            (ListOf [ZBackend.arange [1; 1; 1; 1; 16]%Z; ZBackend.arange [1; 2; 2; 2; 8]%Z])
            None) world0
  ≠ inl TypeError.
Proof.
  intros self.
  apply (UpSampleResnetBlock_sublayers_in_place (LU := ZBackend.lu) 8 true self).
  by exists world0.
Defined.

Lemma DownSampleResnetBlock_call_errors_witness :
  let self :=
    DownSampleResnetBlock.mk (TF := ZBackend.tf) true
      (Conv3dBlock_at (LU := ZBackend.lu) 0 8 (PyInt 3) (PyInt 1) "same")
      (Conv3dBlock_at (LU := ZBackend.lu) 3 8 (PyInt 3) (PyInt 1) "same")
      (ZBackend.conv3d 6 8 (Some (PyInt 3)) (Some (PyInt 1)) None)
      (lu_batch_norm (LayerUtil := ZBackend.lu) 7)
      (lu_act (LayerUtil := ZBackend.lu) 8 "relu")
      (ZBackend.max_pool3d 9 [2; 2; 2]%Z [2; 2; 2]%Z)
      (Conv3dBlock_at (LU := ZBackend.lu) 10 8 (PyInt 3) (PyInt 2) "same") in
  result (DownSampleResnetBlock.call self (ZBackend.arange [2; 2; 2; 2]%Z) None) world0
    = inl (FrameworkError (TfValueError "Conv3D expects a 5-D input"))
  ∧ ∃ framework_error,
      FrameworkError (TfValueError "Conv3D expects a 5-D input")
      = FrameworkError framework_error.
Proof.
  intros self. split; [reflexivity|].
  exact (DownSampleResnetBlock_call_errors (TF := ZBackend.tf) self
           (ZBackend.arange [2; 2; 2; 2]%Z) None world0 _ eq_refl).
Defined.

Lemma UpSampleResnetBlock_builds_once_witness :
  let self :=
    UpSampleResnetBlock.mk (TF := ZBackend.tf) 8 true None None
      (Conv3dBlock_at (LU := ZBackend.lu) 0 8 (PyInt 3) (PyInt 1) "same")
      (ZBackend.conv3d 3 8 None (Some (PyInt 1)) None)
      (lu_batch_norm (LayerUtil := ZBackend.lu) 4)
      (lu_act (LayerUtil := ZBackend.lu) 5 "relu") false in
  match result (UpSampleResnetBlock.__call__ self
                  (ListOf [ZBackend.arange [1; 1; 1; 1; 16]%Z;
                           ZBackend.arange [1; 2; 2; 2; 8]%Z]) None) world0 with
  | inr (self', h1) =>
      UpSampleResnetBlock.built self' = true
      ∧ ∀ (inputs : PyArg (Tensor Z)) training',
          emits (λ ev, ¬ is_construction ev)
            (UpSampleResnetBlock.__call__ self' inputs training')
  | inl _ => False
  end.
Proof.
  intros self.
  destruct (result _ _) as [e|[self' h1]] eqn:Hcall.
  - discriminate Hcall.
  - eapply (UpSampleResnetBlock_builds_once (LU := ZBackend.lu) 8 true self).
    + by exists world0.
    + exact Hcall.
Defined.
